(** * A browser-launch broker: registry, selection and connectors

    Shallow embedding of [src/code.py] (a copy of CPython's [webbrowser]
    module): the process-wide registry ([_browsers], [_tryorder],
    [_os_preferred_browser]), [register], [get], [open], [_synthesize],
    the environment probe and every connector class with its [open]
    method.

    Python strings are modelled as [string] (byte strings: the
    case-folding and the whitespace of [str.lower] and [str.split] are
    the ASCII ones).  The operating system (process spawning, the search
    path, the environment variables) is an explicit record of oracles,
    and every effect of the module is threaded through a state and
    exception monad whose state holds the registry and the log of the
    observable events. *)

From Stdlib Require Import ZArith List String Ascii Bool Lia.
From stdpp Require Import base option list strings gmap.

Open Scope string_scope.
Open Scope Z_scope.

(** ** Python string operations used by the module *)

Module Str.

Definition ascii_lower (c : ascii) : ascii :=
  let n := nat_of_ascii c in
  if ((65 <=? n) && (n <=? 90))%nat then ascii_of_nat (n + 32) else c.

(** [s.lower()] *)
Fixpoint lower (s : string) : string :=
  match s with
  | EmptyString => EmptyString
  | String c s' => String (ascii_lower c) (lower s')
  end.

(** [c.isspace()] on the ASCII range. *)
Definition isspace (c : ascii) : bool :=
  let n := nat_of_ascii c in
  (((9 <=? n) && (n <=? 13)) || ((28 <=? n) && (n <=? 32)))%nat.

Definition snoc (s : string) (c : ascii) : string := s +:+ String c EmptyString.

Fixpoint split_go (tok : string) (s : string) : list string :=
  match s with
  | EmptyString => if String.eqb tok "" then [] else [tok]
  | String c s' =>
      if isspace c
      then (if String.eqb tok "" then split_go "" s' else tok :: split_go "" s')
      else split_go (snoc tok c) s'
  end.

(** [s.split()]: the maximal runs of non-whitespace characters. *)
Definition split (s : string) : list string := split_go "" s.

Fixpoint split_on_go (sep : ascii) (tok : string) (s : string) : list string :=
  match s with
  | EmptyString => [tok]
  | String c s' =>
      if Ascii.eqb c sep then tok :: split_on_go sep "" s'
      else split_on_go sep (snoc tok c) s'
  end.

(** [s.split(sep)] for a separator of one character. *)
Definition split_on (sep : ascii) (s : string) : list string := split_on_go sep "" s.

(** [sub in s] *)
Fixpoint contains (sub s : string) : bool :=
  String.prefix sub s ||
  match s with
  | EmptyString => false
  | String _ s' => contains sub s'
  end.

(** [s.replace(old, new)] for a non-empty [old]: the occurrences are
    replaced from left to right, without overlap.  [skip] counts the
    characters of a matched occurrence that are still to be dropped. *)
Fixpoint replace_go (old new : string) (skip : nat) (s : string) : string :=
  match s with
  | EmptyString => EmptyString
  | String c s' =>
      match skip with
      | S k => replace_go old new k s'
      | O =>
          if String.prefix old s
          then new +:+ replace_go old new (String.length old - 1) s'
          else String c (replace_go old new 0 s')
      end
  end.

Definition replace (old new s : string) : string := replace_go old new 0 s.

Fixpoint lstrip (s : string) : string :=
  match s with
  | EmptyString => EmptyString
  | String c s' => if isspace c then lstrip s' else s
  end.

Fixpoint rstrip (s : string) : string :=
  match s with
  | EmptyString => EmptyString
  | String c s' =>
      let r := rstrip s' in
      if String.eqb r "" && isspace c then EmptyString else String c r
  end.

(** [s.strip()] *)
Definition strip (s : string) : string := rstrip (lstrip s).

(** [s[:n]] *)
Definition take (n : nat) (s : string) : string := String.substring 0 n s.

Fixpoint basename_go (acc : string) (s : string) : string :=
  match s with
  | EmptyString => acc
  | String c s' =>
      if Ascii.eqb c "/" then basename_go "" s' else basename_go (snoc acc c) s'
  end.

(** [posixpath.basename]: what follows the last slash. *)
Definition posix_basename (s : string) : string := basename_go "" s.

(** [posixpath.join a b] for a relative [b]. *)
Definition posix_join (a b : string) : string :=
  if String.eqb a "" then b
  else if String.prefix "/" b then b
  else if String.eqb (String.substring (String.length a - 1) 1 a) "/" then a +:+ b
  else a +:+ "/" +:+ b.

End Str.



(** ** [shlex.split]

    The tokenizer of the [shlex] module in POSIX mode with
    [whitespace_split] set and no comment characters, which is what
    [shlex.split(s)] runs.  [None] stands for the [ValueError] raised on
    an unclosed quotation or a dangling escape character. *)

Module Shlex.

Inductive lexstate : Type :=
| Space                          (* state ' ': between tokens *)
| Word                           (* state 'a': inside a token *)
| Quote (q : ascii)              (* state is the opening quote character *)
| Escape (back : option ascii).  (* state '\': [back] is the quote to resume in, if any *)

Definition is_whitespace (c : ascii) : bool :=
  let n := nat_of_ascii c in
  ((n =? 32) || (n =? 9) || (n =? 13) || (n =? 10))%nat.

Definition is_quote (c : ascii) : bool :=
  let n := nat_of_ascii c in ((n =? 39) || (n =? 34))%nat.

Definition is_escape (c : ascii) : bool := (nat_of_ascii c =? 92)%nat.

Definition dquote : ascii := ascii_of_nat 34.
Definition backslash : ascii := ascii_of_nat 92.

Fixpoint lex (st : lexstate) (token : string) (quoted : bool) (s : string)
  : option (list string) :=
  match s with
  | EmptyString =>
      match st with
      | Space | Word => Some (if negb quoted && String.eqb token "" then [] else [token])
      | Quote _ | Escape _ => None
      end
  | String c s' =>
      match st with
      | Space =>
          if is_whitespace c then
            if negb (String.eqb token "") || quoted
            then cons token <$> lex Space "" false s'
            else lex Space token quoted s'
          else if is_escape c then lex (Escape None) token quoted s'
          else if is_quote c then lex (Quote c) token quoted s'
          else lex Word (String c "") quoted s'
      | Word =>
          if is_whitespace c then
            if negb (String.eqb token "") || quoted
            then cons token <$> lex Space "" false s'
            else lex Space token quoted s'
          else if is_quote c then lex (Quote c) token quoted s'
          else if is_escape c then lex (Escape None) token quoted s'
          else lex Word (Str.snoc token c) quoted s'
      | Quote q =>
          if Ascii.eqb c q then lex Word token true s'
          else if is_escape c && Ascii.eqb q dquote
               then lex (Escape (Some q)) token true s'
          else lex (Quote q) (Str.snoc token c) true s'
      | Escape back =>
          match back with
          | Some q =>
              let token1 :=
                if negb (Ascii.eqb c backslash) && negb (Ascii.eqb c q)
                then Str.snoc token backslash else token in
              lex (Quote q) (Str.snoc token1 c) quoted s'
          | None => lex Word (Str.snoc token c) quoted s'
          end
      end
  end.

Definition split (s : string) : option (list string) := lex Space "" false s.

End Shlex.

(** ** Exceptions and results *)

(** The two messages of the module's own [Error] exception. *)
Inductive ErrorReason : Type :=
| could_not_locate_runnable_browser
| bad_new_parameter (new : Z).

Inductive Exn : Type :=
| Error (r : ErrorReason)
| OSError
| ValueError
| IndexError
| TypeError
| AttributeError
| AssertionError
| NotImplementedError.

(** The outcome of a computation: a value, a Python exception, or
    [OutOfFuel] when a loop of the model was given too little fuel. *)
Inductive Res (A : Type) : Type :=
| Ret (a : A)
| Raise (e : Exn)
| OutOfFuel.

Arguments Ret {A} a.
Arguments Raise {A} e.
Arguments OutOfFuel {A}.

(** ** The operating system *)

(** The keyword arguments of [subprocess.Popen] that the module passes:
    [close_fds=True], a stream redirected to [subprocess.DEVNULL], and
    [start_new_session=True]. *)
Record PopenOpts : Type := mkPopenOpts {
  close_fds : bool;
  stdin_devnull : bool;
  stdout_devnull : bool;
  stderr_devnull : bool;
  start_new_session : bool
}.

(** What the module can observe of a spawned process [p]: [p.poll()]
    right after the spawn ([None] while it runs), the exit status
    returned by [p.wait()], and [p.wait(timeout)], which is [None] when
    [subprocess.TimeoutExpired] is raised. *)
Record Proc : Type := mkProc {
  poll : option Z;
  wait : Z;
  wait_timeout : Z -> option Z
}.

Inductive Event : Type :=
| Audit (event : string) (arg : string)            (* sys.audit(event, arg) *)
| Spawn (cmdline : list string) (opts : PopenOpts)  (* subprocess.Popen(cmdline, ...) *)
| CheckOutput (cmdline : list string)              (* subprocess.check_output(cmdline, ...) *)
| StartFile (url : string)                         (* os.startfile(url) *)
| OSAScript (script : string).                     (* os.popen('osascript', 'w') and the script written *)

(** What [subprocess.check_output(cmd, ...)] followed by
    [raw_result.decode()] comes to: the text of the output, or [None]
    for it when the bytes cannot be decoded; one of the four exceptions
    that the probe catches ([FileNotFoundError], [CalledProcessError],
    [PermissionError], [NotADirectoryError]); or any other exception,
    which the probe lets through. *)
Inductive CheckOutputResult : Type :=
| Answer (decoded : option string)
| CaughtError
| OtherError (e : Exn).

(** The environment the module runs in.  The outcome of a call into the
    operating system may depend on everything that happened before it,
    so the oracles for the calls take the log of the past events.
    [spawn] is [None] when [Popen] raises [OSError], the one exception
    of [Popen] that the model knows: the [ValueError] that [Popen]
    raises for an argument with a NUL byte is outside of it.
    [startfile] is [false] when [os.startfile] raises [OSError];
    [osascript] is [None] when [os.popen] returns [None], and otherwise
    the value of [close()] on the pipe. *)
Record OS : Type := mkOS {
  sys_platform : string;
  which : string -> bool;
  environ : string -> option string;
  pathsep : ascii;
  path_basename : string -> string;
  path_join : string -> string -> string;
  spawn : list Event -> list string -> PopenOpts -> option Proc;
  check_output : list Event -> list string -> CheckOutputResult;
  startfile : list Event -> string -> bool;
  osascript : list Event -> string -> option (option Z)
}.

(** ** Connectors *)

Inductive Klass : Type :=
| BaseBrowser
| GenericBrowser
| BackgroundBrowser
| UnixBrowser
| Mozilla
| Epiphany
| Chrome
| Opera
| Elinks
| Konqueror
| Edge
| WindowsDefault
| MacOSX
| MacOSXOSAScript.

Definition Chromium : Klass := Chrome.

(** An instance: its class and its attributes.  [basename] is [None] for
    an instance of [MacOSX], whose [__init__] sets [name] only; [args]
    is the class attribute [['%s']] unless [GenericBrowser.__init__]
    replaced it. *)
Record Browser : Type := mkBrowser {
  klass : Klass;
  name : string;
  basename : option string;
  args : list string
}.

(** A registry entry [[klass, instance]]. *)
Definition Descriptor : Type := (option Klass * option Browser)%type.

(** ** The state and the monad *)

Record State : Type := mkState {
  _browsers : gmap string Descriptor;
  _tryorder : option (list string);
  _os_preferred_browser : option string;
  log : list Event
}.

Definition M (A : Type) : Type := State -> State * Res A.

Definition ret {A} (a : A) : M A := fun s => (s, Ret a).

Definition raise {A} (e : Exn) : M A := fun s => (s, Raise e).

Definition bind {A B} (m : M A) (k : A -> M B) : M B :=
  fun s =>
    match m s with
    | (s', Ret a) => k a s'
    | (s', Raise e) => (s', Raise e)
    | (s', OutOfFuel) => (s', OutOfFuel)
    end.

Declare Scope py_scope.
Delimit Scope py_scope with py.
Notation "x <- m ;; k" := (bind m (fun x => k))
  (at level 100, m at next level, k at level 200, right associativity) : py_scope.
Notation "m ;; k" := (bind m (fun _ => k))
  (at level 100, k at level 200, right associativity) : py_scope.
Open Scope py_scope.

(** [try: x = body / except OSError: on_error / else: on_else x] *)
Definition try_OSError {A B} (body : M A) (on_error : M B) (on_else : A -> M B) : M B :=
  fun s =>
    match body s with
    | (s', Ret a) => on_else a s'
    | (s', Raise OSError) => on_error s'
    | (s', Raise e) => (s', Raise e)
    | (s', OutOfFuel) => (s', OutOfFuel)
    end.

Definition lift {A} (r : Res A) : M A := fun s => (s, r).

Definition when (b : bool) (m : M unit) : M unit := if b then m else ret tt.

(** [for x in l: body x], for a list that the body does not change. *)
Fixpoint for_each {A} (l : list A) (body : A -> M unit) : M unit :=
  match l with
  | [] => ret tt
  | x :: l' => body x ;; for_each l' body
  end.

Definition get_state : M State := fun s => (s, Ret s).

Definition emit (e : Event) : M unit :=
  fun s => (mkState (_browsers s) (_tryorder s) (_os_preferred_browser s) (log s ++ [e]), Ret tt).

Definition set_browsers (m : gmap string Descriptor) : M unit :=
  fun s => (mkState m (_tryorder s) (_os_preferred_browser s) (log s), Ret tt).

Definition set_tryorder (l : option (list string)) : M unit :=
  fun s => (mkState (_browsers s) l (_os_preferred_browser s) (log s), Ret tt).

Definition set_os_preferred_browser (p : option string) : M unit :=
  fun s => (mkState (_browsers s) (_tryorder s) p (log s), Ret tt).

(** Python truthiness of a string, of an exit status, of a list. *)
Definition nonempty (s : string) : bool := negb (String.eqb s "").

Definition dq : string := String (ascii_of_nat 34) "".
Definition nl : string := String (ascii_of_nat 10) "".

Fixpoint spaces (n : nat) : string :=
  match n with
  | O => ""
  | S k => String " " (spaces k)
  end.

Section Webbrowser.

Variable os : OS.

(** [sys.platform[:3] == 'win'] *)
Definition is_win : bool := String.eqb (Str.take 3 (sys_platform os)) "win".

(** [sys.audit('webbrowser.open', url)] *)
Definition audit (url : string) : M unit := emit (Audit "webbrowser.open" url).

(** [subprocess.Popen(cmdline, ...)]: the process, or [OSError].  The
    [ValueError] that [Popen] raises for an argument with a NUL byte is
    not modelled. *)
Definition Popen (cmdline : list string) (opts : PopenOpts) : M Proc :=
  s <- get_state ;;
  emit (Spawn cmdline opts) ;;
  match spawn os (log s) cmdline opts with
  | Some p => ret p
  | None => raise OSError
  end.

(** *** Constructors *)

(** [BaseBrowser.__init__(self, name='')], inherited by the remote
    controllable classes, [Konqueror], [WindowsDefault] and
    [MacOSXOSAScript]. *)
Definition BaseBrowser_init (k : Klass) (nm : string) : Browser :=
  mkBrowser k nm (Some nm) ["%s"].

(** [GenericBrowser.__init__(self, name)] with a string and with a list. *)
Definition GenericBrowser_init (k : Klass) (nm : string) : Browser :=
  mkBrowser k nm (Some (path_basename os nm)) ["%s"].

Definition GenericBrowser_init_list (k : Klass) (argv : list string) : Res Browser :=
  match argv with
  | [] => Raise IndexError
  | nm :: rest => Ret (mkBrowser k nm (Some (path_basename os nm)) rest)
  end.

(** [MacOSX.__init__(self, name)] *)
Definition MacOSX_init (nm : string) : Browser := mkBrowser MacOSX nm None ["%s"].

(** [klass()]: a class called without argument. *)
Definition instantiate (k : Klass) : Res Browser :=
  match k with
  | GenericBrowser | BackgroundBrowser | MacOSX => Raise TypeError
  | MacOSXOSAScript => Ret (BaseBrowser_init k "default")
  | _ => Ret (BaseBrowser_init k "")
  end.

(** *** GenericBrowser and BackgroundBrowser *)

Definition GenericBrowser_open (self : Browser) (url : string) (new : Z) (autoraise : bool)
  : M bool :=
  audit url ;;
  let cmdline := name self :: map (Str.replace "%s" url) (args self) in
  try_OSError
    (if is_win then Popen cmdline (mkPopenOpts false false false false false)
     else Popen cmdline (mkPopenOpts true false false false false))
    (ret false)
    (fun p => ret (wait p =? 0)).

Definition BackgroundBrowser_open (self : Browser) (url : string) (new : Z) (autoraise : bool)
  : M bool :=
  let cmdline := name self :: map (Str.replace "%s" url) (args self) in
  audit url ;;
  try_OSError
    (if is_win then Popen cmdline (mkPopenOpts false false false false false)
     else Popen cmdline (mkPopenOpts true false false false true))
    (ret false)
    (fun p => ret (bool_decide (poll p = None))).

(** *** UnixBrowser and its families: the class attributes *)

Definition raise_opts (k : Klass) : option (list string) :=
  match k with
  | Epiphany => Some ["-noraise"; ""]
  | _ => None
  end.

Definition background (k : Klass) : bool :=
  match k with
  | Mozilla | Epiphany | Chrome | Opera | Edge => true
  | _ => false
  end.

Definition redirect_stdout (k : Klass) : bool :=
  match k with
  | Elinks => false
  | _ => true
  end.

Definition remote_args (k : Klass) : list string :=
  match k with
  | Elinks => ["-remote"; "openURL(%s%action)"]
  | _ => ["%action"; "%s"]
  end.

Definition remote_action (k : Klass) : option string :=
  match k with
  | Mozilla | Chrome | Opera | Elinks | Edge => Some ""
  | Epiphany => Some "-n"
  | _ => None
  end.

Definition remote_action_newwin (k : Klass) : option string :=
  match k with
  | Mozilla => Some "-new-window"
  | Epiphany => Some "-w"
  | Chrome | Opera | Edge => Some "--new-window"
  | Elinks => Some ",new-window"
  | _ => None
  end.

Definition remote_action_newtab (k : Klass) : option string :=
  match k with
  | Mozilla => Some "-new-tab"
  | Chrome | Opera | Edge => Some ""
  | Elinks => Some ",new-tab"
  | _ => None
  end.

(** [UnixBrowser._invoke(self, args, remote, autoraise, url=None)] *)
Definition _invoke (self : Browser) (args : list string) (remote autoraise : bool) : M bool :=
  let k := klass self in
  let opts := default [] (raise_opts k) in
  raise_opt <-
    (if remote && negb (bool_decide (opts = [])) then
       match opts !! (if autoraise then 1%nat else 0%nat) with
       | Some opt => ret (if nonempty opt then [opt] else [])
       | None => raise IndexError
       end
     else ret []) ;;
  let cmdline := name self :: (raise_opt ++ args)%list in
  let inout := remote || background k in
  p <- Popen cmdline (mkPopenOpts true inout (redirect_stdout k && inout) inout true) ;;
  if remote then
    match wait_timeout p 5 with
    | Some rc => ret (rc =? 0)
    | None => ret true
    end
  else if background k then
    match poll p with
    | None => ret true
    | Some _ => ret false
    end
  else ret (wait p =? 0).

(** [UnixBrowser.open(self, url, new=0, autoraise=True)] *)
Definition UnixBrowser_open (self : Browser) (url : string) (new : Z) (autoraise : bool)
  : M bool :=
  let k := klass self in
  audit url ;;
  action <-
    (if new =? 0 then ret (remote_action k)
     else if new =? 1 then ret (remote_action_newwin k)
     else if new =? 2 then
       match remote_action_newtab k with
       | None => ret (remote_action_newwin k)
       | Some a => ret (Some a)
       end
     else raise (Error (bad_new_parameter new))) ;;
  args1 <-
    (match action, remote_args k with
     | None, _ :: _ => raise TypeError
     | None, [] => ret []
     | Some a, ra => ret (map (fun arg => Str.replace "%action" a (Str.replace "%s" url arg)) ra)
     end) ;;
  let args2 := List.filter nonempty args1 in
  success <- _invoke self args2 true autoraise ;;
  if negb success then
    _invoke self (map (Str.replace "%s" url) (args self)) false false
  else ret true.

(** *** Konqueror

    In the source the [else] suites of the three [try] statements of
    [Konqueror.open] are printed one after the other behind the last
    [except] clause (lines 280-287), innermost first: the first belongs
    to the third [try] (kfm), the second to the second (konqueror) and
    the third to the first (kfmclient). *)
Definition Konqueror_open (self : Browser) (url : string) (new : Z) (autoraise : bool)
  : M bool :=
  audit url ;;
  let action := if new =? 2 then "newTab" else "openURL" in
  let kfm :=
    try_OSError
      (Popen ["kfm"; "-d"; url] (mkPopenOpts true true true true true))
      (ret false)
      (fun p => ret (bool_decide (poll p = None))) in
  let konqueror :=
    try_OSError
      (Popen ["konqueror"; "--silent"; url] (mkPopenOpts true true true true true))
      kfm
      (fun p => match poll p with
                | None => ret true
                | Some _ => kfm
                end) in
  try_OSError
    (Popen ["kfmclient"; action; url] (mkPopenOpts true true true true false))
    konqueror
    (fun p => let _ := wait p in ret true).

(** *** The platform-specific classes *)

Definition WindowsDefault_open (self : Browser) (url : string) (new : Z) (autoraise : bool)
  : M bool :=
  audit url ;;
  s <- get_state ;;
  emit (StartFile url) ;;
  if startfile os (log s) url then ret true else ret false.

(** [os.popen('osascript', 'w')], [osapipe.write(script)] and
    [not osapipe.close()]. *)
Definition run_osascript (script : string) : M bool :=
  s <- get_state ;;
  emit (OSAScript script) ;;
  match osascript os (log s) script with
  | None => ret false
  | Some None => ret true
  | Some (Some rc) => ret (rc =? 0)
  end.

Definition MacOSX_open (self : Browser) (url : string) (new : Z) (autoraise : bool)
  : M bool :=
  audit url ;;
  if Str.contains "'" url then raise AssertionError else
  let url := if Str.contains ":" url then url else "file:" +:+ url in
  let new := if new =? 0 then 0 else 1 in
  let script :=
    if String.eqb (name self) "default" then
      "open location " +:+ dq +:+ Str.replace dq "%22" url +:+ dq
    else
      let toWindow :=
        if String.eqb (name self) "OmniWeb" then ""
        else if new =? 0 then "toWindow -1" else "toWindow 0" in
      let cmd := "OpenURL " +:+ dq +:+ Str.replace dq "%22" url +:+ dq in
      name self +:+ dq +:+ nl +:+ spaces 32 +:+ "activate" +:+ nl +:+ spaces 32
        +:+ cmd +:+ " " +:+ toWindow +:+ nl +:+ spaces 28 +:+ "end tell" in
  run_osascript script.

Definition MacOSXOSAScript_open (self : Browser) (url : string) (new : Z) (autoraise : bool)
  : M bool :=
  let script :=
    if String.eqb (name self) "default" then
      "open location " +:+ dq +:+ Str.replace dq "%22" url +:+ dq
    else
      nl +:+ spaces 19 +:+ "tell application " +:+ dq +:+ name self +:+ dq +:+ nl
        +:+ spaces 23 +:+ "activate" +:+ nl
        +:+ spaces 23 +:+ "open location " +:+ dq +:+ Str.replace dq "%22" url +:+ dq +:+ nl
        +:+ spaces 19 +:+ "end" +:+ nl +:+ spaces 19 in
  run_osascript script.

(** *** Method resolution: [browser.open(url, new, autoraise)] *)
Definition Browser_open (self : Browser) (url : string) (new : Z) (autoraise : bool)
  : M bool :=
  match klass self with
  | BaseBrowser => raise NotImplementedError
  | GenericBrowser => GenericBrowser_open self url new autoraise
  | BackgroundBrowser => BackgroundBrowser_open self url new autoraise
  | UnixBrowser | Mozilla | Epiphany | Chrome | Opera | Elinks | Edge =>
      UnixBrowser_open self url new autoraise
  | Konqueror => Konqueror_open self url new autoraise
  | WindowsDefault => WindowsDefault_open self url new autoraise
  | MacOSX => MacOSX_open self url new autoraise
  | MacOSXOSAScript => MacOSXOSAScript_open self url new autoraise
  end.

(** *** The registry *)

(** [register(name, klass, instance=None, *, preferred=False)].  [init]
    is the call of [register_standard_browsers] on a registry that was
    never initialised. *)
Definition register_with (init : M unit)
    (nm : string) (k : option Klass) (instance : option Browser) (preferred : bool) : M unit :=
  s <- get_state ;;
  when (bool_decide (_tryorder s = None)) init ;;
  s <- get_state ;;
  set_browsers (<[Str.lower nm := (k, instance)]> (_browsers s)) ;;
  match _tryorder s with
  | None => raise AttributeError
  | Some l =>
      if preferred ||
         match _os_preferred_browser s with
         | Some p => nonempty p && Str.contains nm p
         | None => false
         end
      then set_tryorder (Some (nm :: l))
      else set_tryorder (Some (l ++ [nm])%list)
  end.

(** [_synthesize(browser, *, preferred=False)] *)
Definition _synthesize_with (init : M unit) (browser : string) (preferred : bool)
  : M Descriptor :=
  match Str.split browser with
  | [] => raise IndexError
  | cmd :: _ =>
      if negb (which os cmd) then ret (None, None) else
      let nm := path_basename os cmd in
      s <- get_state ;;
      match _browsers s !! Str.lower nm with
      | None => ret (None, None)
      | Some command =>
          match snd command with
          | None => ret (None, None)
          | Some controller =>
              match basename controller with
              | None => raise AttributeError
              | Some b =>
                  if String.eqb (Str.lower nm) b then
                    let controller :=
                      mkBrowser (klass controller) browser
                                (Some (path_basename os browser)) (args controller) in
                    register_with init browser None (Some controller) preferred ;;
                    ret (None, Some controller)
                  else ret (None, None)
              end
          end
      end
  end.

(** *** The environment probe

    While the probe runs [_tryorder] is a list, so that the calls of
    [register] and [_synthesize] below never start the probe again. *)

Definition register_nested := register_with (ret tt).

Definition register_X_browsers : M unit :=
  when (which os "xdg-open")
    (register_nested "xdg-open" None (Some (GenericBrowser_init BackgroundBrowser "xdg-open")) false) ;;
  when (which os "gio")
    (b <- lift (GenericBrowser_init_list BackgroundBrowser ["gio"; "open"; "--"; "%s"]) ;;
     register_nested "gio" None (Some b) false) ;;
  when (bool_decide (is_Some (environ os "GNOME_DESKTOP_SESSION_ID")) && which os "gvfs-open")
    (register_nested "gvfs-open" None (Some (GenericBrowser_init BackgroundBrowser "gvfs-open")) false) ;;
  when (bool_decide (is_Some (environ os "KDE_FULL_SESSION")) && which os "kfmclient")
    (register_nested "kfmclient" (Some Konqueror) (Some (BaseBrowser_init Konqueror "kfmclient")) false) ;;
  when (which os "x-www-browser")
    (register_nested "x-www-browser" None (Some (GenericBrowser_init BackgroundBrowser "x-www-browser")) false) ;;
  for_each ["firefox"; "iceweasel"; "seamonkey"; "mozilla-firefox"; "mozilla"]
    (fun browser =>
       when (which os browser)
         (register_nested browser None (Some (BaseBrowser_init Mozilla browser)) false)) ;;
  (if which os "kfm"
   then register_nested "kfm" (Some Konqueror) (Some (BaseBrowser_init Konqueror "kfm")) false
   else when (which os "konqueror")
          (register_nested "konqueror" (Some Konqueror)
             (Some (BaseBrowser_init Konqueror "konqueror")) false)) ;;
  when (which os "epiphany")
    (register_nested "epiphany" None (Some (BaseBrowser_init Epiphany "epiphany")) false) ;;
  for_each ["google-chrome"; "chrome"; "chromium"; "chromium-browser"]
    (fun browser =>
       when (which os browser)
         (register_nested browser None (Some (BaseBrowser_init Chrome browser)) false)) ;;
  when (which os "opera")
    (register_nested "opera" None (Some (BaseBrowser_init Opera "opera")) false) ;;
  when (which os "microsoft-edge")
    (register_nested "microsoft-edge" None (Some (BaseBrowser_init Edge "microsoft-edge")) false).

(** Truthiness of [os.environ.get(var)]. *)
Definition environ_truthy (var : string) : bool :=
  match environ os var with
  | Some v => nonempty v
  | None => false
  end.

Definition register_standard_browsers : M unit :=
  set_tryorder (Some []) ;;
  when (String.eqb (sys_platform os) "darwin")
    (register_nested "MacOSX" None (Some (BaseBrowser_init MacOSXOSAScript "default")) false ;;
     register_nested "chrome" None (Some (BaseBrowser_init MacOSXOSAScript "chrome")) false ;;
     register_nested "firefox" None (Some (BaseBrowser_init MacOSXOSAScript "firefox")) false ;;
     register_nested "safari" None (Some (BaseBrowser_init MacOSXOSAScript "safari")) false) ;;
  when (String.eqb (sys_platform os) "serenityos")
    (register_nested "Browser" None (Some (GenericBrowser_init BackgroundBrowser "Browser")) false) ;;
  (if is_win then
     register_nested "windows-default" (Some WindowsDefault) None false ;;
     let edge64 :=
       path_join os (default "C:\Program Files (x86)" (environ os "PROGRAMFILES(x86)"))
                 "Microsoft\Edge\Application\msedge.exe" in
     let edge32 :=
       path_join os (default "C:\Program Files" (environ os "PROGRAMFILES"))
                 "Microsoft\Edge\Application\msedge.exe" in
     for_each ["firefox"; "seamonkey"; "mozilla"; "chrome"; "opera"; edge64; edge32]
       (fun browser =>
          when (which os browser)
            (register_nested browser None
               (Some (GenericBrowser_init BackgroundBrowser browser)) false)) ;;
     when (which os "MicrosoftEdge.exe")
       (register_nested "microsoft-edge" None
          (Some (BaseBrowser_init Edge "MicrosoftEdge.exe")) false)
   else
     when (environ_truthy "DISPLAY" || environ_truthy "WAYLAND_DISPLAY")
       (s <- get_state ;;
        emit (CheckOutput ["xdg-settings"; "get"; "default-web-browser"]) ;;
        match check_output os (log s) ["xdg-settings"; "get"; "default-web-browser"] with
        | Answer (Some result) => set_os_preferred_browser (Some (Str.strip result))
        | Answer None => raise ValueError   (* UnicodeDecodeError, a ValueError *)
        | CaughtError => ret tt
        | OtherError e => raise e
        end ;;
        register_X_browsers) ;;
     when (environ_truthy "TERM")
       (when (which os "www-browser")
          (register_nested "www-browser" None
             (Some (GenericBrowser_init GenericBrowser "www-browser")) false) ;;
        when (which os "links")
          (register_nested "links" None (Some (GenericBrowser_init GenericBrowser "links")) false) ;;
        when (which os "elinks")
          (register_nested "elinks" None (Some (BaseBrowser_init Elinks "elinks")) false) ;;
        when (which os "lynx")
          (register_nested "lynx" None (Some (GenericBrowser_init GenericBrowser "lynx")) false) ;;
        when (which os "w3m")
          (register_nested "w3m" None (Some (GenericBrowser_init GenericBrowser "w3m")) false))) ;;
  match environ os "BROWSER" with
  | None => ret tt
  | Some v =>
      for_each (rev (Str.split_on (pathsep os) v))
        (fun cmdline =>
           when (nonempty cmdline)
             (cmd <- _synthesize_with (ret tt) cmdline true ;;
              when (bool_decide (snd cmd = None))
                (register_nested cmdline None
                   (Some (GenericBrowser_init GenericBrowser cmdline)) true)))
  end.

Definition register := register_with register_standard_browsers.

Definition _synthesize := _synthesize_with register_standard_browsers.

(** The guarded call at the head of [get] and [open]:
    [if _tryorder is None: with _lock: if _tryorder is None: register_standard_browsers()] *)
Definition ensure_registered : M unit :=
  s <- get_state ;;
  when (bool_decide (_tryorder s = None)) register_standard_browsers.

(** *** Selection *)

(** The body of the loop of [get] for one candidate: [Some b] when the
    iteration returns the connector [b], [None] when the loop goes on. *)
Definition get_step (browser : string) : M (option Browser) :=
  if Str.contains "%s" browser then
    match Shlex.split browser with
    | None => raise ValueError
    | Some argv =>
        match last argv with
        | None => raise IndexError
        | Some tok =>
            if String.eqb tok "&"
            then b <- lift (GenericBrowser_init_list BackgroundBrowser (removelast argv)) ;;
                 ret (Some b)
            else b <- lift (GenericBrowser_init_list GenericBrowser argv) ;;
                 ret (Some b)
        end
    end
  else
    s <- get_state ;;
    command <-
      match _browsers s !! Str.lower browser with
      | Some command => ret command
      | None => _synthesize browser false
      end ;;
    match command with
    | (_, Some instance) => ret (Some instance)
    | (Some k, None) => b <- lift (instantiate k) ;; ret (Some b)
    | (None, None) => ret None
    end.

(** The loop of [get] over [_tryorder] itself, from index [i]; the list
    is read again at each iteration since [_synthesize] may grow it. *)
Fixpoint get_loop (fuel : nat) (i : nat) : M Browser :=
  match fuel with
  | O => lift OutOfFuel
  | S fuel' =>
      s <- get_state ;;
      match _tryorder s with
      | None => raise TypeError
      | Some l =>
          match l !! i with
          | None => raise (Error could_not_locate_runnable_browser)
          | Some browser =>
              r <- get_step browser ;;
              match r with
              | Some b => ret b
              | None => get_loop fuel' (S i)
              end
          end
      end
  end.

(** [get(using=None)] *)
Definition get (fuel : nat) (using_ : option string) : M Browser :=
  ensure_registered ;;
  match using_ with
  | Some u =>
      r <- get_step u ;;
      match r with
      | Some b => ret b
      | None => raise (Error could_not_locate_runnable_browser)
      end
  | None => get_loop fuel 0
  end.

(** The loop of [open] over [_tryorder], from index [i]. *)
Fixpoint open_loop (fuel : nat) (i : nat) (url : string) (new : Z) (autoraise : bool)
  : M bool :=
  match fuel with
  | O => lift OutOfFuel
  | S fuel' =>
      s <- get_state ;;
      match _tryorder s with
      | None => raise TypeError
      | Some l =>
          match l !! i with
          | None => ret false
          | Some nm =>
              browser <- get fuel' (Some nm) ;;
              ok <- Browser_open browser url new autoraise ;;
              if ok then ret true else open_loop fuel' (S i) url new autoraise
          end
      end
  end.

(** [open(url, new=0, autoraise=True)] *)
Definition open (fuel : nat) (url : string) (new : Z) (autoraise : bool) : M bool :=
  ensure_registered ;;
  open_loop fuel 0 url new autoraise.

(** [open_new(url)] and [open_new_tab(url)] *)
Definition open_new (fuel : nat) (url : string) : M bool := open fuel url 1 true.

Definition open_new_tab (fuel : nat) (url : string) : M bool := open fuel url 2 true.

(** *** The command line: [main]

    [getopt.getopt(sys.argv[1:], 'ntdh', ['help'])] is taken as given:
    either the options, as pairs of an option and its argument, and the
    remaining arguments, or the message of [getopt.error]. *)

Inductive GetoptResult : Type :=
| Parsed (opts : list (string * string)) (args : list string)
| GetoptError (msg : string).

(** A line printed on the standard error or on the standard output. *)
Inductive Output : Type :=
| Stderr (line : string)
| Stdout (line : string).

(** How [main] ends: it returns, [sys.exit] is called, or an exception
    of [open] goes through. *)
Inductive Ending : Type :=
| Returned
| Exited (code : option Z)
| Uncaught (e : Exn)
| Unfinished.

Definition usage (argv0 : string) : string :=
  "Usage: " +:+ argv0 +:+ " [-n | -t | -h] url" +:+ nl
    +:+ "    -n: open new window" +:+ nl
    +:+ "    -t: open new tab" +:+ nl
    +:+ "    -h, --help: show help".

Definition bell : string := String (ascii_of_nat 7) "".

(** The loop of [main] over the options: the value of [new_win] after
    it, or [None] when a help option ends the program. *)
Fixpoint scan_opts (opts : list (string * string)) (new_win : Z) : option Z :=
  match opts with
  | [] => Some new_win
  | (o, a) :: opts' =>
      if String.eqb o "-n" then scan_opts opts' 1
      else if String.eqb o "-t" then scan_opts opts' 2
      else if String.eqb o "-h" || String.eqb o "--help" then None
      else scan_opts opts' new_win
  end.

(** [main()], with the name of the program and the outcome of [getopt]. *)
Definition main (fuel : nat) (argv0 : string) (parsed : GetoptResult) (s : State)
  : State * list Output * Ending :=
  match parsed with
  | GetoptError msg => (s, [Stderr msg; Stderr (usage argv0)], Exited (Some 1))
  | Parsed opts args =>
      match scan_opts opts 0 with
      | None => (s, [Stderr (usage argv0)], Exited None)
      | Some new_win =>
          match args with
          | [url] =>
              match open fuel url new_win true s with
              | (s', Ret _) => (s', [Stdout bell], Returned)
              | (s', Raise e) => (s', [], Uncaught e)
              | (s', OutOfFuel) => (s', [], Unfinished)
              end
          | _ => (s, [Stderr (usage argv0)], Exited (Some 1))
          end
      end
  end.

End Webbrowser.

(** ** Observations on the log *)

(** The audit events of a log, as pairs of the event name and its argument. *)
Fixpoint audit_events (l : list Event) : list (string * string) :=
  match l with
  | [] => []
  | Audit ev arg :: l' => (ev, arg) :: audit_events l'
  | _ :: l' => audit_events l'
  end.

(** The command lines spawned in a log. *)
Fixpoint spawned (l : list Event) : list (list string) :=
  match l with
  | [] => []
  | Spawn cmdline _ :: l' => cmdline :: spawned l'
  | _ :: l' => spawned l'
  end.

(** ** Concrete environments *)

(** A POSIX system: the platform name and the [posixpath] functions are
    fixed, the search path, the environment variables and the behaviour
    of spawned processes are given; [xdg-settings] is not found. *)
Definition posix_os (which : string -> bool) (environ : string -> option string)
    (spawn : list Event -> list string -> PopenOpts -> option Proc) : OS :=
  mkOS "linux" which environ ":" Str.posix_basename Str.posix_join
       spawn (fun _ _ => CaughtError) (fun _ _ => false) (fun _ _ => None).

(** A Mac: [osascript] answers with the given status. *)
Definition darwin_os (rc : option (option Z)) : OS :=
  mkOS "darwin" (fun _ => false) (fun _ => None) ":" Str.posix_basename Str.posix_join
       (fun _ _ _ => None) (fun _ _ => CaughtError) (fun _ _ => false) (fun _ _ => rc).

(** A process that is still running when polled and ends with status [rc]. *)
Definition running (rc : Z) : Proc := mkProc None rc (fun _ => Some rc).

(** A process that has already ended with status [rc] when polled. *)
Definition exited (rc : Z) : Proc := mkProc (Some rc) rc (fun _ => Some rc).

(** A process that outlives every timeout. *)
Definition hanging : Proc := mkProc None 0 (fun _ => None).

(** The registry before the first use of the module. *)
Definition fresh : State := mkState ∅ None None [].

(** An initialised registry holding nothing. *)
Definition empty_registry : State := mkState ∅ (Some []) None [].

(** The remote-controllable classes: [UnixBrowser] and its subclasses. *)
Definition is_unix (k : Klass) : bool :=
  match k with
  | UnixBrowser | Mozilla | Epiphany | Chrome | Opera | Elinks | Edge => true
  | _ => false
  end.

(** The browser families: the subclasses of [UnixBrowser], which define
    the remote actions. *)
Definition is_unix_family (k : Klass) : bool :=
  match k with
  | Mozilla | Epiphany | Chrome | Opera | Elinks | Edge => true
  | _ => false
  end.

(** [s] after the events [evs]. *)
Definition logged (s : State) (evs : list Event) : State :=
  mkState (_browsers s) (_tryorder s) (_os_preferred_browser s) (log s ++ evs).

(** A system on which nothing can be spawned. *)
Definition no_exec_os : OS := posix_os (fun _ => true) (fun _ => None) (fun _ _ _ => None).

(** A system on which every spawn gives the process [p]. *)
Definition const_os (p : Proc) : OS := posix_os (fun _ => true) (fun _ => None) (fun _ _ _ => Some p).

(** A system on which [kfmclient] and [konqueror] cannot be spawned and
    [kfm] ends at once. *)
Definition kfm_only_os : OS :=
  posix_os (fun _ => true) (fun _ => None)
    (fun _ cmdline _ =>
       match cmdline with
       | cmd :: _ => if String.eqb cmd "kfm" then Some (exited 1) else None
       | [] => None
       end).





(** What a class other than the remote-controllable ones makes of a
    [new] outside 0, 1, 2: [MacOSX] reads [int(bool(new))], that is 1;
    [Konqueror] tests [new == 2] only, and the other classes do not
    read [new]. *)
Definition new_as_read (k : Klass) : Z :=
  match k with
  | MacOSX => 1
  | _ => 0
  end.

(** ** Registry states *)

(** Whether [register(name, ..., preferred=preferred)] puts [name] at
    the front of the preference order. *)
Definition prefers (s : State) (nm : string) (preferred : bool) : bool :=
  preferred ||
  match _os_preferred_browser s with
  | Some p => nonempty p && Str.contains nm p
  | None => false
  end.

(** The registry [s], initialised with the order [l], after [name] was
    registered with the descriptor [d]. *)
Definition registered (s : State) (l : list string) (nm : string) (d : Descriptor)
    (preferred : bool) : State :=
  mkState (<[Str.lower nm := d]> (_browsers s))
          (Some (if prefers s nm preferred then nm :: l else (l ++ [nm])%list))
          (_os_preferred_browser s) (log s).

(** Every name of the preference order has a descriptor, or is a command
    line with a placeholder; [register] keeps it so. *)
Definition resolvable (s : State) (l : list string) : Prop :=
  forall nm, In nm l ->
    Str.contains "%s" nm = true \/ is_Some (_browsers s !! Str.lower nm).

(** One round of the loop of [open]: resolve the name, call the connector. *)
Definition attempt (os : OS) (url : string) (new : Z) (autoraise : bool) (nm : string)
  : M bool :=
  browser <- get os 0 (Some nm) ;;
  Browser_open os browser url new autoraise.

(** The rounds for the names of [l], run one after the other from the
    state [s], all return false and end in the state [s']. *)
Inductive all_fail (os : OS) (url : string) (new : Z) (autoraise : bool)
  : list string -> State -> State -> Prop :=
| all_fail_nil (s : State) : all_fail os url new autoraise [] s s
| all_fail_cons (nm : string) (l : list string) (s s1 s2 : State) :
    attempt os url new autoraise nm s = (s1, Ret false) ->
    all_fail os url new autoraise l s1 s2 ->
    all_fail os url new autoraise (nm :: l) s s2.

(** Whether the character [c] occurs in [s]. *)
Fixpoint mem_char (c : ascii) (s : string) : bool :=
  match s with
  | EmptyString => false
  | String c' s' => Ascii.eqb c c' || mem_char c s'
  end.

(** A system on which every executable is found and every spawn gives
    a running process. *)
Definition all_found_os : OS :=
  posix_os (fun _ => true) (fun _ => None) (fun _ _ _ => Some (running 0)).

(** A registry holding the template of Firefox. *)
Definition firefox_registry : State :=
  mkState {[ "firefox" := (None, Some (BaseBrowser_init Mozilla "firefox")) ]}
          (Some ["firefox"]) None [].

(** A registry holding a class without instance under the name kfm. *)
Definition kfm_registry : State :=
  mkState {[ "kfm" := (Some Konqueror, None) ]} (Some ["kfm"]) None [].

(** The body of the loop of [get], [get] called with [browser], and
    [get] called without argument when [browser] heads the preference
    order, give the outcome [r] from every initialised registry and
    leave it as it is: the outcome does not depend on the descriptors. *)
Definition returns_without_registry (os : OS) (browser : string) (r : Res Browser) : Prop :=
  (forall s,
     get_step os browser s =
       (s, match r with
           | Ret b => Ret (Some b)
           | Raise e => Raise e
           | OutOfFuel => OutOfFuel
           end)) /\
  (forall fuel s, _tryorder s <> None -> get os fuel (Some browser) s = (s, r)) /\
  (forall fuel s l,
     _tryorder s = Some (browser :: l) -> get os (S fuel) None s = (s, r)).

(** The states that the tokenizer reaches: no token is pending between
    two tokens, and a quotation was opened by a quote character. *)
Definition lex_ok (st : Shlex.lexstate) (token : string) : Prop :=
  match st with
  | Shlex.Space => token = ""
  | Shlex.Word | Shlex.Escape None => True
  | Shlex.Quote q | Shlex.Escape (Some q) => Shlex.is_quote q = true
  end.

(** A system on which the command [a] ends at once with status 1 and
    every other command ends with status 0. *)
Definition abc_os : OS :=
  posix_os (fun _ => true) (fun _ => None)
    (fun _ cmdline _ =>
       match cmdline with
       | cmd :: _ => if String.eqb cmd "a" then Some (exited 1) else Some (exited 0)
       | [] => None
       end).

(** A registry of three direct-command launchers, in the order a, b, c. *)
Definition abc_registry : State :=
  mkState {[ "a" := (None, Some (mkBrowser GenericBrowser "a" (Some "a") ["%s"]));
             "b" := (None, Some (mkBrowser GenericBrowser "b" (Some "b") ["%s"]));
             "c" := (None, Some (mkBrowser GenericBrowser "c" (Some "c") ["%s"])) ]}
          (Some ["a"; "b"; "c"]) None [].

(** ** Invariants of the registry *)

(** The registry is initialised and every name of the preference order
    has a descriptor under its lowercased form. *)
Definition consistent (s : State) : Prop :=
  exists l, _tryorder s = Some l /\
            forall nm, In nm l -> is_Some (_browsers s !! Str.lower nm).

(** Every stored instance has a [basename] attribute. *)
Definition named (s : State) : Prop :=
  forall key k b, _browsers s !! key = Some (k, Some b) -> basename b <> None.

(** The registry is initialised and its instances have a [basename]. *)
Definition ready (s : State) : Prop := is_Some (_tryorder s) /\ named s.

(** [m] keeps [P]: whatever the outcome, a state in [P] is left in [P]. *)
Definition keeps {A} (P : State -> Prop) (m : M A) : Prop :=
  forall s s' r, P s -> m s = (s', r) -> P s'.

(** [m] establishes [P] from every state, whatever the outcome. *)
Definition establishes {A} (P : State -> Prop) (m : M A) : Prop :=
  forall s s' r, m s = (s', r) -> P s'.

(** From a state in [P], [m] returns a value, in a state in [P]. *)
Definition runs {A} (P : State -> Prop) (m : M A) : Prop :=
  forall s, P s -> exists s' a, m s = (s', Ret a) /\ P s'.

(** Whether the probe asks [xdg-settings] for the default browser. *)
Definition queries_xdg (os : OS) : bool :=
  negb (is_win os) && (environ_truthy os "DISPLAY" || environ_truthy os "WAYLAND_DISPLAY").

(** When the probe asks [xdg-settings], the command gives an output
    that can be decoded, or raises one of the four exceptions that the
    probe catches. *)
Definition xdg_settings_answers (os : OS) : Prop :=
  queries_xdg os = true ->
  forall l,
    match check_output os l ["xdg-settings"; "get"; "default-web-browser"] with
    | Answer (Some _) | CaughtError => True
    | Answer None | OtherError _ => False
    end.

(** A string of white space only: it is not empty and has no word. *)
Definition blank (e : string) : Prop := e <> "" /\ Str.split e = [].

(** The entries of the variable BROWSER, as the probe splits it. *)
Definition browser_entries (os : OS) : list string :=
  match environ os "BROWSER" with
  | Some v => Str.split_on (pathsep os) v
  | None => []
  end.

(** The body of the loop of the probe over the entries of BROWSER. *)
Definition use_browser_entry (os : OS) (cmdline : string) : M unit :=
  when (nonempty cmdline)
    (cmd <- _synthesize_with os (ret tt) cmdline true ;;
     when (bool_decide (snd cmd = None))
       (register_nested cmdline None
          (Some (GenericBrowser_init os GenericBrowser cmdline)) true)).

(** The action that [UnixBrowser.open] selects for [new] in 0, 1, 2. *)
Definition action_for (k : Klass) (new : Z) : option string :=
  if new =? 0 then remote_action k
  else if new =? 1 then remote_action_newwin k
  else match remote_action_newtab k with
       | None => remote_action_newwin k
       | Some a => Some a
       end.

(** The option that the remote phase inserts for [autoraise]. *)
Definition raise_option (k : Klass) (autoraise : bool) : list string :=
  match k with
  | Epiphany => if autoraise then [] else ["-noraise"]
  | _ => []
  end.

(** The scripts handed to [osascript] in a log. *)
Fixpoint scripts (l : list Event) : list string :=
  match l with
  | [] => []
  | OSAScript script :: l' => script :: scripts l'
  | _ :: l' => scripts l'
  end.

(** Whether an option asks for help. *)
Definition is_help (o : string * string) : bool :=
  String.eqb (fst o) "-h" || String.eqb (fst o) "--help".

(** Whether an option selects a window or a tab. *)
Definition is_choice (o : string * string) : bool :=
  String.eqb (fst o) "-n" || String.eqb (fst o) "-t".

(** The registry is initialised and ready, and every name of the
    preference order is found on the search path. *)
Definition installed (os : OS) (s : State) : Prop :=
  ready s /\ exists l, _tryorder s = Some l /\ Forall (fun nm => which os nm = true) l.

(** ** More environments and registries *)

(** A system with nothing on the search path and the variable BROWSER
    set to [v]. *)
Definition browser_env_os (v : string) : OS :=
  posix_os (fun _ => false)
    (fun var => if String.eqb var "BROWSER" then Some v else None)
    (fun _ _ _ => None).

(** A system with nothing on the search path and no variable set. *)
Definition bare_os : OS := posix_os (fun _ => false) (fun _ => None) (fun _ _ _ => None).

(** A terminal on which only [lynx] is installed. *)
Definition lynx_os : OS :=
  posix_os (fun nm => String.eqb nm "lynx")
    (fun var => if String.eqb var "TERM" then Some "xterm" else None)
    (fun _ _ _ => Some (exited 0)).

(** A terminal in a graphical session, on which only [lynx] is
    installed; [xdg-settings] is not found. *)
Definition lynx_desktop_os : OS :=
  posix_os (fun nm => String.eqb nm "lynx")
    (fun var => if String.eqb var "TERM" then Some "xterm"
                else if String.eqb var "DISPLAY" then Some ":0" else None)
    (fun _ _ _ => Some (exited 0)).

(** A system on which the command [a] ends at once with status 1 and
    no other command can be spawned. *)
Definition a_only_os : OS :=
  posix_os (fun _ => true) (fun _ => None)
    (fun _ cmdline _ =>
       match cmdline with
       | cmd :: _ => if String.eqb cmd "a" then Some (exited 1) else None
       | [] => None
       end).

(** A direct-command launcher, a remote-controllable one and another
    direct-command launcher, in this order. *)
Definition a_firefox_c_registry : State :=
  mkState {[ "a" := (None, Some (mkBrowser GenericBrowser "a" (Some "a") ["%s"]));
             "firefox" := (None, Some (BaseBrowser_init Mozilla "firefox"));
             "c" := (None, Some (mkBrowser GenericBrowser "c" (Some "c") ["%s"])) ]}
          (Some ["a"; "firefox"; "c"]) None [].

(** An instance of [MacOSX] registered by hand. *)
Definition safari_registry : State :=
  mkState {[ "safari" := (None, Some (MacOSX_init "safari")) ]} (Some ["safari"]) None [].

(** A name registered with neither class nor instance, before a usable one. *)
Definition skipping_registry : State :=
  mkState {[ "a" := (None, None);
             "b" := (None, Some (mkBrowser GenericBrowser "b" (Some "b") ["%s"])) ]}
          (Some ["a"; "b"]) None [].

(** What [get] makes of a candidate with the placeholder: the launcher
    for the command line, split by the rules of the shell. *)
Definition placeholder_launcher (os : OS) (browser : string) : Res Browser :=
  match Shlex.split browser with
  | None => Raise ValueError
  | Some argv =>
      match last argv with
      | None => Raise IndexError
      | Some tok =>
          if String.eqb tok "&"
          then GenericBrowser_init_list os BackgroundBrowser (removelast argv)
          else GenericBrowser_init_list os GenericBrowser argv
      end
  end.

(** A system on which the first command spawned during a call ends at
    once with status 1 and every later one keeps running. *)
Definition remote_fails_os : OS :=
  posix_os (fun _ => true) (fun _ => None)
    (fun l _ _ =>
       match spawned l with
       | [] => Some (exited 1)
       | _ :: _ => Some (running 0)
       end).

(** A class without instance, as the probe registers it on Windows,
    behind a name with neither class nor instance. *)
Definition class_only_registry : State :=
  mkState {[ "a" := (None, None);
             "windows-default" := (Some WindowsDefault, None) ]}
          (Some ["a"; "windows-default"]) None [].

(** ** The string operations on concrete inputs *)

Example lower_ex : Str.lower "FireFox-3" = "firefox-3".
Proof. reflexivity. Qed.

Example split_ex : Str.split "  /usr/bin/firefox   -P  x " = ["/usr/bin/firefox"; "-P"; "x"].
Proof. reflexivity. Qed.

Example replace_ex : Str.replace "%s" "URL" "a%sb%%s" = "aURLb%URL".
Proof. reflexivity. Qed.

Example basename_ex : Str.posix_basename "/usr/bin/firefox -P x" = "firefox -P x".
Proof. reflexivity. Qed.

Example shlex_ex1 : Shlex.split "firefox -P 'my profile' %s &" = Some ["firefox"; "-P"; "my profile"; "%s"; "&"].
Proof. reflexivity. Qed.

Example shlex_ex2 : Shlex.split "'%s" = None.
Proof. reflexivity. Qed.

Example shlex_ex3 : Shlex.split "a\ b  c'' %s" = Some ["a b"; "c"; "%s"].
Proof. reflexivity. Qed.

(** ** The connectors *)

#[local] Arguments Str.replace : simpl never.
#[local] Arguments Str.contains : simpl never.
#[local] Arguments nonempty : simpl never.

Lemma audit_events_app (l1 l2 : list Event) :
  audit_events (l1 ++ l2) = (audit_events l1 ++ audit_events l2)%list.
Proof.
  induction l1 as [|e l1 IH]; [reflexivity|].
  destruct e; simpl; rewrite IH; reflexivity.
Qed.

Lemma spawned_app (l1 l2 : list Event) :
  spawned (l1 ++ l2) = (spawned l1 ++ spawned l2)%list.
Proof.
  induction l1 as [|e l1 IH]; [reflexivity|].
  destruct e; simpl; rewrite IH; reflexivity.
Qed.

(** Unfolds the monadic operations of a connector's [open]. *)
Ltac unfold_monad :=
  cbv beta iota delta [bind ret raise lift when try_OSError audit Popen emit get_state
    set_browsers set_tryorder set_os_preferred_browser]; cbn.

(** Case analysis on a value the code branches on, innermost first. *)
Ltac branch :=
  match goal with
  | |- context [match ?x with _ => _ end] =>
      lazymatch x with
      | context [match _ with _ => _ end] => fail
      | _ => destruct x eqn:?; cbn
      end
  end.

(** Closes a goal [exists evs, l ++ e1 ++ ... = l ++ evs /\ P evs]. *)
Ltac log_tail :=
  rewrite <- ?app_assoc; eexists; split; [reflexivity | cbn; try reflexivity].

Lemma Zeqb_bool_decide (x y : Z) : (x =? y) = bool_decide (x = y).
Proof.
  destruct (Z.eqb_spec x y).
  - rewrite bool_decide_eq_true_2; done.
  - rewrite bool_decide_eq_false_2; done.
Qed.

Section ConnectorFacts.

Variable os : OS.

(** X1: Every class but [MacOSXOSAScript] and the abstract [BaseBrowser]
    emits the audit event exactly once, whatever the outcome. *)
Lemma open_audits_once (self : Browser) (url : string) (new : Z) (autoraise : bool) (s : State) :
  klass self <> MacOSXOSAScript -> klass self <> BaseBrowser ->
  exists evs,
    log (fst (Browser_open os self url new autoraise s)) = (log s ++ evs)%list /\
    audit_events evs = [("webbrowser.open", url)].
Proof.
  intros Hosa Hbase.
  unfold Browser_open.
  destruct (klass self) eqn:Hk; try congruence;
    unfold GenericBrowser_open, BackgroundBrowser_open, UnixBrowser_open, _invoke,
      Konqueror_open, WindowsDefault_open, MacOSX_open, run_osascript;
    rewrite ?Hk; unfold_monad; repeat branch; log_tail.
Qed.

(** C1, at the connector that breaks it: [MacOSXOSAScript.open] emits no
    audit event at all, whatever its name, its arguments, the state and
    the answer of [osascript]; every other concrete class emits the
    event once ([open_audits_once]). *)
Theorem MacOSXOSAScript_open_no_audit
    (nm url : string) (new : Z) (autoraise : bool) (s : State) :
  exists evs,
    log (fst (Browser_open os (BaseBrowser_init MacOSXOSAScript nm) url new autoraise s))
      = (log s ++ evs)%list /\
    audit_events evs = [].
Proof.
  unfold Browser_open, MacOSXOSAScript_open, run_osascript; unfold_monad.
  repeat branch; log_tail.
Qed.

(** A direct-command launcher returns false when the spawn fails or the
    exit status is not zero, a backgrounded launcher when the spawn
    fails or the process has already ended at the poll. *)
Lemma GenericBrowser_open_false (self : Browser) (url : string) (new : Z) (autoraise : bool)
    (s : State) :
  (forall cmdline opts,
     match spawn os (log s ++ [Audit "webbrowser.open" url]) cmdline opts with
     | None => True
     | Some p => wait p <> 0
     end) ->
  snd (GenericBrowser_open os self url new autoraise s) = Ret false.
Proof.
  intros H. unfold GenericBrowser_open; unfold_monad.
  destruct (is_win os); simpl;
    match goal with |- context [spawn os ?l ?c ?o] => specialize (H c o); destruct (spawn os l c o) end;
    simpl; try reflexivity; f_equal; apply Z.eqb_neq; exact H.
Qed.

Lemma BackgroundBrowser_open_false (self : Browser) (url : string) (new : Z) (autoraise : bool)
    (s : State) :
  (forall cmdline opts,
     match spawn os (log s ++ [Audit "webbrowser.open" url]) cmdline opts with
     | None => True
     | Some p => poll p <> None
     end) ->
  snd (BackgroundBrowser_open os self url new autoraise s) = Ret false.
Proof.
  intros H. unfold BackgroundBrowser_open; unfold_monad.
  destruct (is_win os); simpl;
    match goal with |- context [spawn os ?l ?c ?o] => specialize (H c o); destruct (spawn os l c o) end;
    simpl; try reflexivity; f_equal; apply bool_decide_eq_false; exact H.
Qed.

(** X2: when the executable cannot be spawned, the [open] of a
    remote-controllable launcher lets the [OSError] of [Popen] through
    to its caller: [_invoke] has no handler for it. *)
Theorem UnixBrowser_open_propagates_OSError
    (self : Browser) (url : string) (new : Z) (autoraise : bool) (s : State) :
  is_unix_family (klass self) = true ->
  0 <= new <= 2 ->
  (forall l cmdline opts, spawn os l cmdline opts = None) ->
  snd (Browser_open os self url new autoraise s) = Raise OSError.
Proof.
  intros Hk Hnew Hspawn.
  assert (new = 0 \/ new = 1 \/ new = 2) as [-> | [-> | ->]] by lia;
    unfold Browser_open; destruct (klass self) eqn:Hk'; try discriminate Hk;
    unfold UnixBrowser_open, _invoke; rewrite Hk'; unfold_monad;
    destruct autoraise; cbn; rewrite ?Hspawn; reflexivity.
Qed.



(** C5, amended: [open] raises the module's [Error] on a [new] outside
    0, 1, 2 only under a remote-controllable launcher ([UnixBrowser] and
    its subclasses), after the audit event and before any spawn.  The
    other classes never check [new]: such a value is treated like 0
    (like 1 by [MacOSX], which only tests it for truth). *)
Theorem bad_new_raises_only_for_UnixBrowser
    (self : Browser) (url : string) (new : Z) (autoraise : bool) (s : State) :
  ~ (0 <= new <= 2) ->
  (is_unix (klass self) = true ->
   Browser_open os self url new autoraise s =
     (logged s [Audit "webbrowser.open" url], Raise (Error (bad_new_parameter new)))) /\
  (is_unix (klass self) = false ->
   Browser_open os self url new autoraise s =
     Browser_open os self url (new_as_read (klass self)) autoraise s).
Proof.
  intros Hnew.
  assert ((new =? 0) = false) as H0 by (apply Z.eqb_neq; lia).
  assert ((new =? 1) = false) as H1 by (apply Z.eqb_neq; lia).
  assert ((new =? 2) = false) as H2 by (apply Z.eqb_neq; lia).
  split; intros Hk; unfold Browser_open; destruct (klass self) eqn:Hk'; try discriminate Hk;
    try reflexivity.
  1-7: unfold UnixBrowser_open; unfold_monad; rewrite H0, H1, H2; reflexivity.
  - unfold Konqueror_open. rewrite H2. reflexivity.
  - unfold MacOSX_open. rewrite H0. reflexivity.
Qed.

(** C6: the remote phase of a remote-controllable launcher waits for the
    spawned process with the timeout 5: when the wait ends in time with
    status [rc] the phase succeeds exactly when [rc] is zero, and when
    the timeout expires the phase succeeds; in that case [open] returns
    true after a single spawn, so that the fallback phase is not run. *)
Theorem remote_phase_timeout
    (self : Browser) (url : string) (new : Z) (autoraise : bool) (s : State) (p : Proc) :
  (forall l cmdline opts, spawn os l cmdline opts = Some p) ->
  is_unix_family (klass self) = true ->
  0 <= new <= 2 ->
  (forall args,
     snd (_invoke os self args true autoraise s) =
       Ret (match wait_timeout p 5 with
            | Some rc => bool_decide (rc = 0)
            | None => true
            end)) /\
  (wait_timeout p 5 = None ->
   exists cmdline opts,
     Browser_open os self url new autoraise s =
       (logged s [Audit "webbrowser.open" url; Spawn cmdline opts], Ret true)).
Proof.
  intros Hspawn Hk Hnew. split.
  - intros args0. unfold _invoke.
    destruct (klass self) eqn:Hk'; try discriminate Hk; unfold_monad;
      destruct autoraise; cbn; rewrite Hspawn; cbn;
      destruct (wait_timeout p 5) as [rc|]; cbn; try reflexivity;
      rewrite Zeqb_bool_decide; reflexivity.
  - intros Htimeout.
    assert (new = 0 \/ new = 1 \/ new = 2) as [-> | [-> | ->]] by lia;
      unfold Browser_open; destruct (klass self) eqn:Hk'; try discriminate Hk;
      unfold UnixBrowser_open, _invoke; rewrite Hk'; unfold_monad;
      destruct autoraise; cbn; rewrite Hspawn; cbn; rewrite Htimeout; cbn;
      unfold logged; cbn; rewrite <- app_assoc; cbn; eauto.
Qed.

(** C9, amended: [Konqueror.open] tries [kfmclient], then [konqueror],
    then [kfm], in this order.  A [kfmclient] that spawns is waited for
    and [open] returns true whatever its status.  Otherwise a
    [konqueror] that spawns is accepted only if it is still running at
    the poll that follows the spawn.  Otherwise [kfm] is spawned and
    [open] returns whether it was spawned and is still running at the
    poll. *)
Theorem Konqueror_open_attempts
    (self : Browser) (url : string) (new : Z) (autoraise : bool) (s : State) :
  let l0 := (log s ++ [Audit "webbrowser.open" url])%list in
  let c1 := ["kfmclient"; if new =? 2 then "newTab" else "openURL"; url] in
  let c2 := ["konqueror"; "--silent"; url] in
  let c3 := ["kfm"; "-d"; url] in
  let o1 := mkPopenOpts true true true true false in
  let o2 := mkPopenOpts true true true true true in
  let r := Konqueror_open os self url new autoraise s in
  let third :=
    spawned (log (fst r)) = (spawned (log s) ++ [c1; c2; c3])%list /\
    snd r = Ret (match spawn os (l0 ++ [Spawn c1 o1; Spawn c2 o2]) c3 o2 with
                 | Some p3 => bool_decide (poll p3 = None)
                 | None => false
                 end) in
  match spawn os l0 c1 o1 with
  | Some _ => spawned (log (fst r)) = (spawned (log s) ++ [c1])%list /\ snd r = Ret true
  | None =>
      match spawn os (l0 ++ [Spawn c1 o1]) c2 o2 with
      | Some p2 =>
          match poll p2 with
          | None => spawned (log (fst r)) = (spawned (log s) ++ [c1; c2])%list /\
                    snd r = Ret true
          | Some _ => third
          end
      | None => third
      end
  end.
Proof.
  cbv zeta. unfold Konqueror_open; unfold_monad.
  rewrite <- ?app_assoc; cbn.
  destruct (spawn os _ ["kfmclient"; _; url] _) as [p1|]; cbn; rewrite <- ?app_assoc; cbn.
  { rewrite !spawned_app. done. }
  destruct (spawn os _ ["konqueror"; _; url] _) as [p2|]; cbn; rewrite <- ?app_assoc; cbn.
  { destruct (poll p2); cbn; rewrite <- ?app_assoc; cbn.
    - destruct (spawn os _ ["kfm"; _; url] _) as [p3|]; cbn; rewrite <- ?app_assoc; cbn;
        rewrite !spawned_app; done.
    - rewrite !spawned_app; done. }
  destruct (spawn os _ ["kfm"; _; url] _) as [p3|]; cbn; rewrite <- ?app_assoc; cbn;
    rewrite !spawned_app; done.
Qed.

End ConnectorFacts.

Lemma UnixBrowser_open_propagates_OSError_witness :
  snd (Browser_open no_exec_os (BaseBrowser_init Mozilla "firefox")
         "https://example.org" 0 true empty_registry) = Raise OSError.
Proof.
  apply UnixBrowser_open_propagates_OSError; [reflexivity | lia | reflexivity].
Defined.



Lemma bad_new_raises_only_for_UnixBrowser_witness :
  Browser_open no_exec_os (BaseBrowser_init Mozilla "firefox")
    "https://example.org" 3 true empty_registry =
    (logged empty_registry [Audit "webbrowser.open" "https://example.org"],
     Raise (Error (bad_new_parameter 3))).
Proof.
  apply (bad_new_raises_only_for_UnixBrowser no_exec_os (BaseBrowser_init Mozilla "firefox")
           "https://example.org" 3 true empty_registry); [lia | reflexivity].
Defined.

(** C5, as stated, fails at the direct-command launcher: with [new = 7]
    its [open] spawns the command and returns its outcome. *)
Lemma GenericBrowser_open_accepts_bad_new :
  Browser_open (const_os (exited 0)) (GenericBrowser_init (const_os (exited 0)) GenericBrowser "lynx")
    "https://example.org" 7 true empty_registry =
    (logged empty_registry
       [Audit "webbrowser.open" "https://example.org";
        Spawn ["lynx"; "https://example.org"] (mkPopenOpts true false false false false)],
     Ret true).
Proof. reflexivity. Qed.

Lemma remote_phase_timeout_witness :
  exists cmdline opts,
    Browser_open (const_os hanging) (BaseBrowser_init Mozilla "firefox")
      "https://example.org" 0 true empty_registry =
      (logged empty_registry [Audit "webbrowser.open" "https://example.org"; Spawn cmdline opts],
       Ret true).
Proof.
  apply (remote_phase_timeout (const_os hanging) (BaseBrowser_init Mozilla "firefox")
           "https://example.org" 0 true empty_registry hanging);
    [reflexivity | reflexivity | lia | reflexivity].
Defined.

(** C9, as stated, fails: [kfmclient] and [konqueror] cannot be spawned,
    [kfm] is spawned without fault and has ended at the poll, and
    [open] returns false although one of the three forms was spawned. *)
Lemma Konqueror_open_false_though_kfm_spawned :
  spawn kfm_only_os
    [Audit "webbrowser.open" "https://example.org";
     Spawn ["kfmclient"; "openURL"; "https://example.org"] (mkPopenOpts true true true true false);
     Spawn ["konqueror"; "--silent"; "https://example.org"] (mkPopenOpts true true true true true)]
    ["kfm"; "-d"; "https://example.org"] (mkPopenOpts true true true true true)
    = Some (exited 1) /\
  snd (Browser_open kfm_only_os (BaseBrowser_init Konqueror "kfm")
         "https://example.org" 0 true empty_registry) = Ret false.
Proof. split; reflexivity. Qed.

(** ** The registry *)

#[local] Arguments Str.replace : simpl never.
#[local] Arguments Str.contains : simpl never.
#[local] Arguments Str.lower : simpl never.
#[local] Arguments Str.split : simpl never.
#[local] Arguments Shlex.split : simpl never.
#[local] Arguments nonempty : simpl never.
#[local] Arguments register_with : simpl never.
#[local] Arguments _synthesize : simpl never.

Section RegistryFacts.

Variable os : OS.

(** On an initialised registry [register] does not probe the
    environment and always returns. *)
Lemma register_with_initialised (init : M unit) (nm : string) (k : option Klass)
    (instance : option Browser) (preferred : bool) (s : State) (l : list string) :
  _tryorder s = Some l ->
  register_with init nm k instance preferred s
    = (registered s l nm (k, instance) preferred, Ret tt).
Proof.
  intros Hl. destruct s as [b t p lg]. cbn in Hl. subst t.
  unfold register_with, registered, prefers; unfold_monad.
  destruct preferred; cbn; [reflexivity|].
  destruct p as [p|]; cbn; [|reflexivity].
  destruct (nonempty p && Str.contains nm p); reflexivity.
Qed.

(** When [register] returns, whatever the probe did before, the
    descriptor is stored under the lowercased name and the name was put
    at one end of the preference order as it stood after the probe. *)
Lemma register_with_returns (init : M unit) (nm : string) (k : option Klass)
    (instance : option Browser) (preferred : bool) (s s1 : State) :
  register_with init nm k instance preferred s = (s1, Ret tt) ->
  exists s0 l, s1 = registered s0 l nm (k, instance) preferred /\ _tryorder s0 = Some l.
Proof.
  assert (forall s0 r,
            (let (s', r0) := set_browsers (<[Str.lower nm := (k, instance)]> (_browsers s0)) s0 in
             match r0 with
             | Ret _ =>
                 match _tryorder s0 with
                 | None => raise AttributeError
                 | Some l =>
                     if prefers s0 nm preferred then set_tryorder (Some (nm :: l))
                     else set_tryorder (Some (l ++ [nm])%list)
                 end s'
             | Raise e => (s', Raise e)
             | OutOfFuel => (s', OutOfFuel)
             end) = (s1, Ret r) ->
            exists l, s1 = registered s0 l nm (k, instance) preferred /\ _tryorder s0 = Some l)
    as Hcore.
  { intros [b t p lg] r. unfold registered; cbn. destruct t as [l|]; cbn; [|discriminate].
    unfold prefers, set_tryorder; cbn. intros H. exists l. split; [|reflexivity].
    destruct preferred; cbn in *; [by inversion H|].
    destruct p as [p|]; cbn in *; [|by inversion H].
    destruct (nonempty p && Str.contains nm p); cbn in *; by inversion H. }
  unfold register_with, bind, when, get_state.
  destruct (bool_decide (_tryorder s = None)).
  - destruct (init s) as [s0 [[]| |]]; try discriminate.
    intros H. exists s0. apply (Hcore s0 tt). exact H.
  - unfold ret. intros H. exists s. apply (Hcore s tt). exact H.
Qed.

Lemma filter_none {A} (P : A -> Prop) `{forall x, Decision (P x)} (l : list A) :
  (forall x, x ∈ l -> ~ P x) -> filter P l = [].
Proof.
  intros Hno. destruct (filter P l) as [|x l'] eqn:E; [reflexivity|].
  assert (x ∈ filter P l) as Hx by (rewrite E; left).
  apply list_elem_of_filter in Hx as [HP Hin]. exfalso. exact (Hno x Hin HP).
Qed.

(** A key of a dictionary has exactly one entry. *)
Lemma one_entry (m : gmap string Descriptor) (key : string) (d : Descriptor) :
  m !! key = Some d ->
  filter (fun kv => fst kv = key) (map_to_list m) = [(key, d)].
Proof.
  intros Hm.
  assert (NoDup (map_to_list m).*1) as Hnd by apply NoDup_fst_map_to_list.
  assert ((key, d) ∈ map_to_list m) as Hin by (apply elem_of_map_to_list; exact Hm).
  revert Hnd Hin. generalize (map_to_list m) as l.
  induction l as [|[k' d'] l IH]; intros Hnd Hin.
  - inversion Hin.
  - rewrite fmap_cons in Hnd. apply NoDup_cons in Hnd as [Hnotin Hnd].
    rewrite filter_cons. cbn.
    apply elem_of_cons in Hin as [Heq | Hin].
    + inversion Heq; subst k' d'. rewrite decide_True by reflexivity.
      f_equal. apply filter_none. intros [k2 d2] Hin2 Hk. cbn in Hk. subst k2.
      apply Hnotin. apply list_elem_of_fmap. exists (key, d2). split; [reflexivity | exact Hin2].
    + rewrite decide_False.
      * apply IH; assumption.
      * intros ->. apply Hnotin. apply list_elem_of_fmap. exists (key, d). split; [reflexivity | exact Hin].
Qed.

(** C8: after a name was registered, registering it again with another
    descriptor leaves one entry under the lowercased name, holding the
    second descriptor; the preference order of the first call is kept
    and the name is added to it once more, so that the name occurs in
    it, and in fact twice. *)
Theorem register_twice (nm : string) (k1 k2 : option Klass) (i1 i2 : option Browser)
    (p1 p2 : bool) (s s1 : State) :
  register os nm k1 i1 p1 s = (s1, Ret tt) ->
  exists s2 l1 l2,
    register os nm k2 i2 p2 s1 = (s2, Ret tt) /\
    _browsers s2 !! Str.lower nm = Some (k2, i2) /\
    filter (fun kv => fst kv = Str.lower nm) (map_to_list (_browsers s2))
      = [(Str.lower nm, (k2, i2))] /\
    _tryorder s1 = Some l1 /\ _tryorder s2 = Some l2 /\
    In nm l1 /\
    (l2 = nm :: l1 \/ l2 = (l1 ++ [nm])%list) /\
    In nm l2 /\ (2 <= count_occ string_dec l2 nm)%nat.
Proof.
  intros H1. apply register_with_returns in H1 as (s0 & l0 & -> & Hl0).
  set (l1 := if prefers s0 nm p1 then nm :: l0 else (l0 ++ [nm])%list).
  set (s1 := registered s0 l0 nm (k1, i1) p1).
  assert (_tryorder s1 = Some l1) as Hl1 by reflexivity.
  assert (In nm l1) as Hin1.
  { unfold l1. destruct (prefers s0 nm p1); [left; reflexivity | apply in_or_app; right; left; reflexivity]. }
  set (l2 := if prefers s1 nm p2 then nm :: l1 else (l1 ++ [nm])%list).
  exists (registered s1 l1 nm (k2, i2) p2), l1, l2.
  assert (_browsers (registered s1 l1 nm (k2, i2) p2) !! Str.lower nm = Some (k2, i2)) as Hlook
    by apply lookup_insert_eq.
  split; [apply register_with_initialised; exact Hl1|].
  split; [exact Hlook|].
  split; [apply one_entry; exact Hlook|].
  split; [exact Hl1|]. split; [reflexivity|]. split; [exact Hin1|].
  assert (1 <= count_occ string_dec l1 nm)%nat as Hc1 by (apply count_occ_In; exact Hin1).
  unfold l2. destruct (prefers s1 nm p2).
  - split; [left; reflexivity|]. split; [left; reflexivity|].
    rewrite count_occ_cons_eq by reflexivity. lia.
  - split; [right; reflexivity|]. split; [apply in_or_app; right; left; reflexivity|].
    rewrite count_occ_app. cbn. destruct (string_dec nm nm); [lia | congruence].
Qed.

(** C3, amended: on an initialised registry, for a command string whose
    first word is found on the search path and whose base name,
    lowercased, is the key of a descriptor holding an instance with
    that very base name, synthesis returns a copy of the instance (same
    class, same arguments) named by the whole string, with the base
    name of the whole string, stores it under the lowercased string and
    adds the string to the preference order: at the front when a
    preferred registration was asked for or the string occurs in the
    default browser reported by the system, at the end otherwise.  When
    the first word is not found or its base name is no key, synthesis
    returns no connector and changes nothing. *)
Theorem synthesize_spec (browser : string) (preferred : bool) (s : State)
    (l : list string) (cmd : string) (rest : list string) :
  _tryorder s = Some l ->
  Str.split browser = cmd :: rest ->
  (which os cmd = false \/ _browsers s !! Str.lower (path_basename os cmd) = None ->
   _synthesize os browser preferred s = (s, Ret (None, None))) /\
  (forall k template,
     which os cmd = true ->
     _browsers s !! Str.lower (path_basename os cmd) = Some (k, Some template) ->
     basename template = Some (Str.lower (path_basename os cmd)) ->
     let controller :=
       mkBrowser (klass template) browser (Some (path_basename os browser)) (args template) in
     _synthesize os browser preferred s
       = (mkState (<[Str.lower browser := (None, Some controller)]> (_browsers s))
                  (Some (if prefers s browser preferred then browser :: l
                         else (l ++ [browser])%list))
                  (_os_preferred_browser s) (log s),
          Ret (None, Some controller))).
Proof.
  intros Hl Hsplit. unfold _synthesize, _synthesize_with, Descriptor in *. rewrite Hsplit. split.
  - intros [Hwhich | Hkey].
    + rewrite Hwhich. reflexivity.
    + destruct (which os cmd); [|reflexivity].
      unfold bind, get_state; cbn. rewrite Hkey. reflexivity.
  - intros k template Hwhich Hkey Hbase. rewrite Hwhich.
    unfold bind, get_state; cbn. rewrite Hkey; cbn.
    unfold snd. rewrite Hbase, String.eqb_refl.
    rewrite (register_with_initialised _ _ _ _ _ _ l Hl). reflexivity.
Qed.

(** C10, amended: on an initialised registry, for a string without
    placeholder that is itself no key, whose first word is found on the
    search path and has the base name of a descriptor holding a class
    and no instance, synthesis returns no connector and leaves the
    registry as it is, and [get] raises the no-runnable-browser error;
    the class is not called. *)
Theorem get_factory_only (fuel : nat) (browser : string) (s : State)
    (l : list string) (cmd : string) (rest : list string) (k : Klass) :
  _tryorder s = Some l ->
  Str.contains "%s" browser = false ->
  _browsers s !! Str.lower browser = None ->
  Str.split browser = cmd :: rest ->
  which os cmd = true ->
  _browsers s !! Str.lower (path_basename os cmd) = Some (Some k, None) ->
  _synthesize os browser false s = (s, Ret (None, None)) /\
  get os fuel (Some browser) s = (s, Raise (Error could_not_locate_runnable_browser)).
Proof.
  intros Hl Hph Hmiss Hsplit Hwhich Hkey.
  assert (_synthesize os browser false s = (s, Ret (None, None))) as Hsyn.
  { unfold _synthesize, _synthesize_with, Descriptor in *. rewrite Hsplit, Hwhich.
    unfold bind, get_state; cbn. rewrite Hkey. reflexivity. }
  split; [exact Hsyn|].
  unfold get, ensure_registered, get_step, Descriptor in *. rewrite Hph.
  unfold bind, get_state, when; cbn. rewrite Hl.
  rewrite bool_decide_eq_false_2 by discriminate. unfold ret; cbn.
  rewrite Hmiss, Hsyn. reflexivity.
Qed.

End RegistryFacts.

Lemma register_twice_witness :
  exists s2 l1 l2,
    register (posix_os (fun _ => false) (fun _ => None) (fun _ _ _ => None))
      "Lynx" None (Some (BaseBrowser_init Mozilla "b")) false
      (registered empty_registry [] "Lynx" (None, Some (BaseBrowser_init Mozilla "a")) false)
      = (s2, Ret tt) /\
    _browsers s2 !! Str.lower "Lynx" = Some (None, Some (BaseBrowser_init Mozilla "b")) /\
    filter (fun kv => fst kv = Str.lower "Lynx") (map_to_list (_browsers s2))
      = [(Str.lower "Lynx", (None, Some (BaseBrowser_init Mozilla "b")))] /\
    _tryorder (registered empty_registry [] "Lynx" (None, Some (BaseBrowser_init Mozilla "a")) false)
      = Some l1 /\
    _tryorder s2 = Some l2 /\
    In "Lynx" l1 /\
    (l2 = "Lynx" :: l1 \/ l2 = (l1 ++ ["Lynx"])%list) /\
    In "Lynx" l2 /\ (2 <= count_occ string_dec l2 "Lynx")%nat.
Proof.
  apply (register_twice (posix_os (fun _ => false) (fun _ => None) (fun _ _ _ => None))
           "Lynx" None None (Some (BaseBrowser_init Mozilla "a")) (Some (BaseBrowser_init Mozilla "b"))
           false false empty_registry).
  reflexivity.
Defined.

Lemma synthesize_spec_witness :
  _synthesize all_found_os "/opt/firefox -P x" true firefox_registry
    = (mkState (<[Str.lower "/opt/firefox -P x" :=
                   (None, Some (mkBrowser Mozilla "/opt/firefox -P x" (Some "firefox -P x") ["%s"]))]>
                  (_browsers firefox_registry))
               (Some ["/opt/firefox -P x"; "firefox"]) None [],
       Ret (None, Some (mkBrowser Mozilla "/opt/firefox -P x" (Some "firefox -P x") ["%s"]))).
Proof.
  apply (proj2 (synthesize_spec all_found_os "/opt/firefox -P x" true firefox_registry
                  ["firefox"] "/opt/firefox" ["-P"; "x"] eq_refl eq_refl)
           None (BaseBrowser_init Mozilla "firefox")); reflexivity.
Defined.

(** C3, as stated, fails: synthesis as [get] calls it registers the new
    connector at the end of the preference order, not as preferred. *)
Lemma synthesize_from_get_appends :
  snd (get all_found_os 0 (Some "/opt/firefox") firefox_registry)
    = Ret (mkBrowser Mozilla "/opt/firefox" (Some "firefox") ["%s"]) /\
  _tryorder (fst (get all_found_os 0 (Some "/opt/firefox") firefox_registry))
    = Some ["firefox"; "/opt/firefox"].
Proof. split; reflexivity. Qed.

Lemma get_factory_only_witness :
  _synthesize all_found_os "/opt/kfm" false kfm_registry = (kfm_registry, Ret (None, None)) /\
  get all_found_os 0 (Some "/opt/kfm") kfm_registry
    = (kfm_registry, Raise (Error could_not_locate_runnable_browser)).
Proof.
  apply (get_factory_only all_found_os 0 "/opt/kfm" kfm_registry ["kfm"] "/opt/kfm" [] Konqueror);
    reflexivity.
Defined.

(** C10, as stated, fails: the string kfm is found on the search path
    and its base name is the key of a descriptor holding a class only,
    yet [get] finds that descriptor itself, calls the class and returns
    the new connector. *)
Lemma get_calls_registered_factory :
  which all_found_os "kfm" = true /\
  _browsers kfm_registry !! Str.lower (Str.posix_basename "kfm") = Some (Some Konqueror, None) /\
  get all_found_os 0 (Some "kfm") kfm_registry
    = (kfm_registry, Ret (BaseBrowser_init Konqueror "")).
Proof. repeat split. Qed.

(** ** Selection: [get] and [open] *)

#[local] Arguments Str.replace : simpl never.
#[local] Arguments Str.lower : simpl never.
#[local] Arguments Str.split : simpl never.
#[local] Arguments nonempty : simpl never.
#[local] Arguments register_with : simpl never.
#[local] Arguments _synthesize : simpl never.

(** *** The tokenizer keeps the placeholder *)

Lemma mem_char_snoc (c : ascii) (tok : string) (c' : ascii) :
  mem_char c (Str.snoc tok c') = mem_char c tok || Ascii.eqb c c'.
Proof.
  unfold Str.snoc. induction tok as [|a tok IH].
  - change (mem_char c (String c' "")) with (Ascii.eqb c c' || false).
    cbn. apply orb_false_r.
  - change (mem_char c (String a tok +:+ String c' ""))
      with (Ascii.eqb c a || mem_char c (tok +:+ String c' "")).
    rewrite IH. cbn. apply orb_assoc.
Qed.

Lemma special_not_percent (c : ascii) :
  Shlex.is_whitespace c || Shlex.is_quote c || Shlex.is_escape c = true ->
  Ascii.eqb "%" c = false.
Proof.
  destruct c as [[] [] [] [] [] [] [] []]; vm_compute; congruence.
Qed.

(** Decides a goal on the occurrence of the percent sign, from the
    hypothesis [Hmem] on its occurrence before the step, by cases on
    the booleans. *)
Ltac percent_cases Hmem s token :=
  revert Hmem; rewrite ?mem_char_snoc; cbn [mem_char];
  repeat match goal with
         | H : Ascii.eqb "%" _ = false |- _ => rewrite ?H; clear H
         end;
  repeat match goal with
         | |- context [Ascii.eqb "%" ?x] => destruct (Ascii.eqb "%" x) eqn:?
         end;
  destruct (mem_char "%" s), (mem_char "%" token); cbn in *; congruence.

(** Case analysis on a test of the tokenizer, in the equation of its run. *)
Ltac case_lex_in Hl t H := revert Hl; destruct t eqn:H; intros Hl.

(** A character with a role in the syntax is not [%]. *)
Ltac special c :=
  assert (Ascii.eqb "%" c = false)
    by (apply special_not_percent;
        repeat match goal with H : _ = true |- _ => rewrite H end;
        rewrite ?orb_true_r; reflexivity).

Lemma lex_keeps_percent (s : string) :
  forall st token quoted argv,
    lex_ok st token ->
    Shlex.lex st token quoted s = Some argv ->
    mem_char "%" s || mem_char "%" token = true ->
    exists t, In t argv /\ mem_char "%" t = true.
Proof.
  induction s as [|c s IH]; intros st token quoted argv Hok Hlex Hmem.
  - cbn in Hmem. destruct st; cbn in Hlex; try discriminate.
    all: destruct token as [|a token]; [discriminate|];
      rewrite andb_false_r in Hlex; inversion Hlex; subst argv;
      eexists; split; [left; reflexivity | exact Hmem].
  - assert (Hemit : forall argv0,
              cons token <$> Shlex.lex Shlex.Space "" false s = Some argv0 ->
              Ascii.eqb "%" c = false ->
              exists t, In t argv0 /\ mem_char "%" t = true).
    { intros argv0 Hl Hc.
      destruct (Shlex.lex Shlex.Space "" false s) as [argv'|] eqn:Hl'; [|discriminate].
      inversion Hl; subst argv0.
      destruct (mem_char "%" token) eqn:Htk.
      - exists token. split; [left; reflexivity | exact Htk].
      - destruct (IH Shlex.Space "" false argv' eq_refl Hl') as (t & Hin & Ht).
        + cbn [mem_char] in Hmem. rewrite Hc, orb_false_r in Hmem. cbn [orb] in Hmem. rewrite Hmem. reflexivity.
        + exists t. split; [right; exact Hin | exact Ht]. }
    cbn [Shlex.lex] in Hlex.
    destruct st as [| |q|[q|]]; cbn [lex_ok] in Hok.
    + subst token.
      case_lex_in Hlex (Shlex.is_whitespace c) Hw.
      { special c. case_lex_in Hlex quoted Hqd; cbn in Hlex.
        - eapply Hemit; [exact Hlex | assumption].
        - eapply IH; [|exact Hlex|]; [reflexivity|]. percent_cases Hmem s "". }
      case_lex_in Hlex (Shlex.is_escape c) He.
      { special c. eapply IH; [|exact Hlex|]; [exact I|]. percent_cases Hmem s "". }
      case_lex_in Hlex (Shlex.is_quote c) Hq.
      { special c. eapply IH; [|exact Hlex|]; [exact Hq|]. percent_cases Hmem s "". }
      eapply IH; [|exact Hlex|]; [exact I|]. percent_cases Hmem s "".
    + case_lex_in Hlex (Shlex.is_whitespace c) Hw.
      { special c. case_lex_in Hlex (negb (String.eqb token "") || quoted) Hne.
        - eapply Hemit; [exact Hlex | assumption].
        - apply orb_false_iff in Hne as [Hne _].
          apply negb_false_iff, String.eqb_eq in Hne. subst token.
          eapply IH; [|exact Hlex|]; [reflexivity|]. percent_cases Hmem s "". }
      case_lex_in Hlex (Shlex.is_quote c) Hq.
      { special c. eapply IH; [|exact Hlex|]; [exact Hq|]. percent_cases Hmem s token. }
      case_lex_in Hlex (Shlex.is_escape c) He.
      { special c. eapply IH; [|exact Hlex|]; [exact I|]. percent_cases Hmem s token. }
      eapply IH; [|exact Hlex|]; [exact I|]. percent_cases Hmem s token.
    + case_lex_in Hlex (Ascii.eqb c q) Hcq.
      { apply Ascii.eqb_eq in Hcq. subst q. special c.
        eapply IH; [|exact Hlex|]; [exact I|]. percent_cases Hmem s token. }
      case_lex_in Hlex (Shlex.is_escape c && Ascii.eqb q Shlex.dquote) He.
      { apply andb_true_iff in He as [He _]. special c.
        eapply IH; [|exact Hlex|]; [exact Hok|]. percent_cases Hmem s token. }
      eapply IH; [|exact Hlex|]; [exact Hok|]. percent_cases Hmem s token.
    + cbv zeta in Hlex.
      case_lex_in Hlex (negb (Ascii.eqb c Shlex.backslash) && negb (Ascii.eqb c q)) Hb;
        (eapply IH; [|exact Hlex|]; [exact Hok|]); percent_cases Hmem s token.
    + eapply IH; [|exact Hlex|]; [exact I|]. percent_cases Hmem s token.
Qed.

Lemma contains_placeholder_percent (s : string) :
  Str.contains "%s" s = true -> mem_char "%" s = true.
Proof.
  induction s as [|c s IH]; [discriminate|].
  change (Str.contains "%s" (String c s))
    with (String.prefix "%s" (String c s) || Str.contains "%s" s).
  intros H. apply orb_true_iff in H as [H | H].
  - change (String.prefix "%s" (String c s))
      with (if ascii_dec "%" c then String.prefix "s" s else false) in H.
    destruct (ascii_dec "%" c) as [<- | ]; [reflexivity | discriminate].
  - cbn [mem_char]. rewrite (IH H). apply orb_true_r.
Qed.

(** A command line with a placeholder splits into at least one token,
    and one of its tokens holds a percent sign. *)
Lemma split_placeholder_token (browser : string) (argv : list string) :
  Str.contains "%s" browser = true ->
  Shlex.split browser = Some argv ->
  exists t, In t argv /\ mem_char "%" t = true.
Proof.
  intros Hph Hsp. apply (lex_keeps_percent browser Shlex.Space "" false argv).
  - reflexivity.
  - exact Hsp.
  - rewrite (contains_placeholder_percent _ Hph). reflexivity.
Qed.

Section SelectionFacts.

Variable os : OS.

(** An outcome of the loop body that does not depend on the registry
    is the outcome of [get]. *)
Lemma get_of_step (browser : string) (r : Res Browser) :
  (forall s,
     get_step os browser s =
       (s, match r with
           | Ret b => Ret (Some b)
           | Raise e => Raise e
           | OutOfFuel => OutOfFuel
           end)) ->
  returns_without_registry os browser r.
Proof.
  intros H. split; [exact H|]. split.
  - intros fuel s Ht. unfold get, ensure_registered, bind, get_state, when.
    rewrite bool_decide_eq_false_2 by exact Ht. unfold ret. rewrite H.
    destruct r; reflexivity.
  - intros fuel s l Ht. unfold get, ensure_registered, bind, get_state, when.
    rewrite Ht, bool_decide_eq_false_2 by discriminate.
    unfold ret; cbn [get_loop]. unfold bind, get_state. rewrite Ht. cbn [lookup list_lookup].
    rewrite H. destruct r; reflexivity.
Qed.

(** C7, amended: for a candidate string with the placeholder, [get]
    splits it by the rules of the shell.  When a quotation is left open
    or an escape character ends the string, it raises [ValueError].
    Otherwise there is at least one token: when the last token is the
    ampersand, [get] returns a backgrounded launcher for the tokens
    before it, else a direct-command launcher for all tokens.  This is
    so for the string passed to [get] and for the string at the head of
    the preference order, from every initialised registry, which is left
    as it is: the descriptors are not read. *)
Theorem get_placeholder (browser : string) :
  Str.contains "%s" browser = true ->
  match Shlex.split browser with
  | None => returns_without_registry os browser (Raise ValueError)
  | Some argv =>
      exists nm rest,
        (argv = ((nm :: rest) ++ ["&"])%list /\
         returns_without_registry os browser
           (Ret (mkBrowser BackgroundBrowser nm (Some (path_basename os nm)) rest))) \/
        (argv = nm :: rest /\ last argv <> Some "&" /\
         returns_without_registry os browser
           (Ret (mkBrowser GenericBrowser nm (Some (path_basename os nm)) rest)))
  end.
Proof.
  intros Hph. destruct (Shlex.split browser) as [argv|] eqn:Hsp.
  - destruct (split_placeholder_token browser argv Hph Hsp) as (t & Hin & Ht).
    destruct argv as [|tok l _] using rev_ind; [destruct Hin|].
    destruct (String.eqb tok "&") eqn:Htok.
    + apply String.eqb_eq in Htok. subst tok.
      destruct l as [|nm rest].
      { destruct Hin as [<- | []]. discriminate Ht. }
      exists nm, rest. left. split; [reflexivity|].
      apply get_of_step. intros s. unfold get_step. rewrite Hph, Hsp, last_snoc.
      cbn [String.eqb Ascii.eqb Bool.eqb]. rewrite removelast_last. reflexivity.
    + assert (exists nm rest, (l ++ [tok])%list = nm :: rest) as (nm & rest & Heq)
        by (destruct l; cbn; eauto).
      exists nm, rest. right. split; [exact Heq|]. split.
      { rewrite last_snoc. intros [= ->]. discriminate Htok. }
      apply get_of_step. intros s. unfold get_step. rewrite Hph, Hsp, last_snoc, Htok, Heq.
      reflexivity.
  - apply get_of_step. intros s. unfold get_step. rewrite Hph, Hsp. reflexivity.
Qed.

(** *** The loop of [open] *)

(** A connector's [open] adds events to the log and changes nothing
    else of the state. *)
Lemma Browser_open_logged (self : Browser) (url : string) (new : Z) (autoraise : bool)
    (s : State) :
  exists evs, fst (Browser_open os self url new autoraise s) = logged s evs.
Proof.
  destruct s as [b t p lg]. unfold logged, Browser_open.
  destruct (klass self) eqn:Hk;
    unfold GenericBrowser_open, BackgroundBrowser_open, UnixBrowser_open, _invoke,
      Konqueror_open, WindowsDefault_open, MacOSX_open, MacOSXOSAScript_open, run_osascript;
    rewrite ?Hk; unfold_monad; repeat branch;
    rewrite <- ?app_assoc;
    first [ eexists; reflexivity | exists []; rewrite app_nil_r; reflexivity ].
Qed.

(** Resolving a name that has a descriptor, or a command line with a
    placeholder, leaves an initialised registry as it is. *)
Lemma get_resolvable (fuel : nat) (nm : string) (s : State) :
  _tryorder s <> None ->
  Str.contains "%s" nm = true \/ is_Some (_browsers s !! Str.lower nm) ->
  fst (get os fuel (Some nm) s) = s.
Proof.
  intros Ht Hres. unfold get, ensure_registered, bind, get_state, when.
  rewrite bool_decide_eq_false_2 by exact Ht. unfold ret, get_step.
  destruct (Str.contains "%s" nm) eqn:Hph.
  - destruct (Shlex.split nm) as [argv|]; [|reflexivity].
    destruct (last argv) as [tok|]; [|reflexivity].
    unfold bind, lift, GenericBrowser_init_list.
    destruct (String.eqb tok "&"); [destruct (removelast argv) | destruct argv]; reflexivity.
  - destruct Hres as [Hres | [d Hd]]; [discriminate|].
    unfold bind, get_state, Descriptor in *. rewrite Hd. unfold ret.
    destruct d as [[k|] [b|]]; try reflexivity.
    unfold bind, lift. destruct (instantiate k); reflexivity.
Qed.

(** So does one round of the loop of [open], but for the log. *)
Lemma attempt_logged (url : string) (new : Z) (autoraise : bool) (nm : string) (s : State) :
  _tryorder s <> None ->
  Str.contains "%s" nm = true \/ is_Some (_browsers s !! Str.lower nm) ->
  exists evs, fst (attempt os url new autoraise nm s) = logged s evs.
Proof.
  intros Ht Hres. pose proof (get_resolvable 0 nm s Ht Hres) as Hget.
  unfold attempt, bind. destruct (get os 0 (Some nm) s) as [s' [b| |]]; cbn in Hget; subst s'.
  - apply Browser_open_logged.
  - exists []. unfold logged. rewrite app_nil_r. destruct s; reflexivity.
  - exists []. unfold logged. rewrite app_nil_r. destruct s; reflexivity.
Qed.

(** One iteration of the loop of [open] is one round, followed by the
    rest of the loop when the round returned false. *)
Lemma open_loop_step (fuel i : nat) (url : string) (new : Z) (autoraise : bool)
    (s : State) (l : list string) (nm : string) :
  _tryorder s = Some l -> l !! i = Some nm ->
  open_loop os (S fuel) i url new autoraise s =
    match attempt os url new autoraise nm s with
    | (s', Ret true) => (s', Ret true)
    | (s', Ret false) => open_loop os fuel (S i) url new autoraise s'
    | (s', Raise e) => (s', Raise e)
    | (s', OutOfFuel) => (s', OutOfFuel)
    end.
Proof.
  intros Ht Hi. cbn [open_loop]. unfold attempt, bind, get_state. rewrite Ht, Hi.
  change (get os fuel (Some nm) s) with (get os 0 (Some nm) s).
  destruct (get os 0 (Some nm) s) as [s' [b| |]]; try reflexivity.
  destruct (Browser_open os b url new autoraise s') as [s'' [[]| |]]; reflexivity.
Qed.

(** The loop from the index that follows the names already tried. *)
Lemma open_loop_all_fail (url : string) (new : Z) (autoraise : bool)
    (pre post : list string) (s s1 : State) :
  all_fail os url new autoraise pre s s1 ->
  forall (tried : list string) (fuel : nat),
    _tryorder s = Some (tried ++ pre ++ post)%list ->
    resolvable s pre ->
    (length pre < fuel)%nat ->
    match post with
    | [] => open_loop os fuel (length tried) url new autoraise s = (s1, Ret false)
    | nm :: _ =>
        forall s2, attempt os url new autoraise nm s1 = (s2, Ret true) ->
                   open_loop os fuel (length tried) url new autoraise s = (s2, Ret true)
    end.
Proof.
  induction 1 as [s | nm l s s' s1 Hatt Hall IH]; intros tried fuel Ht Hres Hfuel.
  - destruct fuel as [|fuel]; [inversion Hfuel|]. cbn [app] in Ht.
    destruct post as [|nm rest].
    + cbn [open_loop]. unfold bind, get_state. rewrite Ht.
      rewrite lookup_ge_None_2 by (rewrite app_nil_r; reflexivity). reflexivity.
    + intros s2 Hatt.
      rewrite (open_loop_step fuel (length tried) url new autoraise s _ nm Ht)
        by (rewrite lookup_app_r, Nat.sub_diag by reflexivity; reflexivity).
      rewrite Hatt. reflexivity.
  - destruct fuel as [|fuel]; [inversion Hfuel|]. cbn [length] in Hfuel.
    assert (exists evs, s' = logged s evs) as [evs ->].
    { destruct (attempt_logged url new autoraise nm s) as [evs Hevs].
      - rewrite Ht. discriminate.
      - apply Hres. left. reflexivity.
      - exists evs. rewrite Hatt in Hevs. exact Hevs. }
    assert (open_loop os (S fuel) (length tried) url new autoraise s
            = open_loop os fuel (length (tried ++ [nm])) url new autoraise (logged s evs)) as ->.
    { rewrite (open_loop_step fuel (length tried) url new autoraise s _ nm Ht)
        by (rewrite lookup_app_r, Nat.sub_diag by reflexivity; reflexivity).
      rewrite Hatt, length_app, Nat.add_1_r. reflexivity. }
    apply IH.
    + cbn [logged _tryorder]. rewrite Ht, <- app_assoc. reflexivity.
    + intros nm' Hin. apply (Hres nm'). right. exact Hin.
    + lia.
Qed.

(** C4: on an initialised registry whose preference order is [pre]
    followed by [post], where every name of [pre] has a descriptor (as
    [register] ensures) and the rounds for the names of [pre], in this
    order, resolve the name with [get], call the connector's [open] and
    get false, [open] returns false when [post] is empty, raising
    nothing; and when the round for the first name of [post] returns
    true, [open] returns true in the state that this round leaves: the
    names after it are not resolved and their connectors are not
    called. *)
Theorem open_first_success (fuel : nat) (url : string) (new : Z) (autoraise : bool)
    (pre post : list string) (s s1 : State) :
  _tryorder s = Some (pre ++ post)%list ->
  resolvable s pre ->
  all_fail os url new autoraise pre s s1 ->
  (length pre < fuel)%nat ->
  (post = [] -> open os fuel url new autoraise s = (s1, Ret false)) /\
  (forall nm rest s2,
     post = nm :: rest ->
     attempt os url new autoraise nm s1 = (s2, Ret true) ->
     open os fuel url new autoraise s = (s2, Ret true)).
Proof.
  intros Ht Hres Hall Hfuel.
  assert (open os fuel url new autoraise s = open_loop os fuel 0 url new autoraise s) as ->.
  { unfold open, ensure_registered, bind, get_state, when.
    rewrite Ht, bool_decide_eq_false_2 by discriminate. reflexivity. }
  pose proof (open_loop_all_fail url new autoraise pre post s s1 Hall [] fuel Ht Hres Hfuel)
    as Hloop.
  split.
  - intros ->. exact Hloop.
  - intros nm rest s2 -> Hatt. apply Hloop. exact Hatt.
Qed.

End SelectionFacts.

Lemma get_placeholder_witness :
  Str.contains "%s" "xterm -e 'lynx %s' &" = true /\
  returns_without_registry all_found_os "xterm -e 'lynx %s' &"
    (Ret (mkBrowser BackgroundBrowser "xterm" (Some "xterm") ["-e"; "lynx %s"])).
Proof.
  split; [reflexivity|].
  destruct (get_placeholder all_found_os "xterm -e 'lynx %s' &" eq_refl)
    as (nm & rest & [[H1 H2] | [H1 [H2 H3]]]).
  - assert ((["xterm"; "-e"; "lynx %s"] ++ ["&"])%list = ((nm :: rest) ++ ["&"])%list)
      as Hargv by exact H1.
    apply app_inj_tail in Hargv as [Hargv _]. inversion Hargv; subst nm rest. exact H2.
  - exfalso. apply H2. reflexivity.
Defined.

(** C7, as stated, fails: a string with the placeholder in a quotation
    that is left open makes [get] raise [ValueError]; no launcher is
    returned. *)
Lemma get_placeholder_unclosed_quote :
  Str.contains "%s" "'%s" = true /\
  get all_found_os 0 (Some "'%s") firefox_registry = (firefox_registry, Raise ValueError).
Proof. split; reflexivity. Qed.

Lemma open_first_success_witness :
  open abc_os 2 "https://example.org" 0 true abc_registry
    = (logged abc_registry
         [Audit "webbrowser.open" "https://example.org";
          Spawn ["a"; "https://example.org"] (mkPopenOpts true false false false false);
          Audit "webbrowser.open" "https://example.org";
          Spawn ["b"; "https://example.org"] (mkPopenOpts true false false false false)],
       Ret true).
Proof.
  apply (proj2 (open_first_success abc_os 2 "https://example.org" 0 true ["a"] ["b"; "c"]
                  abc_registry
                  (logged abc_registry
                     [Audit "webbrowser.open" "https://example.org";
                      Spawn ["a"; "https://example.org"]
                            (mkPopenOpts true false false false false)])
                  eq_refl
                  ltac:(intros nm [<- | []]; right; eexists; reflexivity)
                  ltac:(apply (all_fail_cons abc_os "https://example.org" 0 true "a" []
                                 abc_registry
                                 (logged abc_registry
                                    [Audit "webbrowser.open" "https://example.org";
                                     Spawn ["a"; "https://example.org"]
                                           (mkPopenOpts true false false false false)]));
                        [reflexivity | constructor])
                  ltac:(cbn; lia))
           "b" ["c"]); reflexivity.
Defined.

(** ** Invariants of the registry *)

Section Keeps.

Context {A B : Type} (P : State -> Prop).

Lemma keeps_ret (a : A) : keeps P (ret a).
Proof. intros s s' r HP [= <- _]. exact HP. Qed.

Lemma keeps_raise (e : Exn) : keeps P (@raise A e).
Proof. intros s s' r HP [= <- _]. exact HP. Qed.

Lemma keeps_lift (x : Res A) : keeps P (lift x).
Proof. intros s s' r HP [= <- _]. exact HP. Qed.

Lemma keeps_get_state : keeps P get_state.
Proof. intros s s' r HP [= <- _]. exact HP. Qed.

Lemma keeps_bind (m : M A) (k : A -> M B) :
  keeps P m -> (forall a, keeps P (k a)) -> keeps P (bind m k).
Proof.
  intros Hm Hk s s' r HP. unfold bind.
  destruct (m s) as [s1 [a|e|]] eqn:E; intros H.
  - exact (Hk a s1 s' r (Hm s s1 _ HP E) H).
  - inversion H; subst s'. exact (Hm s s1 _ HP E).
  - inversion H; subst s'. exact (Hm s s1 _ HP E).
Qed.

Lemma establishes_bind (m : M A) (k : A -> M B) :
  establishes P m -> (forall a, keeps P (k a)) -> establishes P (bind m k).
Proof.
  intros Hm Hk s s' r. unfold bind.
  destruct (m s) as [s1 [a|e|]] eqn:E; intros H.
  - exact (Hk a s1 s' r (Hm s s1 _ E) H).
  - inversion H; subst s'. exact (Hm s s1 _ E).
  - inversion H; subst s'. exact (Hm s s1 _ E).
Qed.

Lemma runs_bind (m : M A) (k : A -> M B) :
  runs P m -> (forall a, runs P (k a)) -> runs P (bind m k).
Proof.
  intros Hm Hk s HP. unfold bind.
  destruct (Hm s HP) as (s1 & a & -> & HP1). exact (Hk a s1 HP1).
Qed.

Lemma runs_ret (a : A) : runs P (ret a).
Proof. intros s HP. exists s, a. split; [reflexivity | exact HP]. Qed.

End Keeps.

Lemma keeps_when (P : State -> Prop) (b : bool) (m : M unit) :
  keeps P m -> keeps P (when b m).
Proof. intros Hm. destruct b; [exact Hm | apply keeps_ret]. Qed.

Lemma keeps_for_each {A} (P : State -> Prop) (l : list A) (body : A -> M unit) :
  (forall x, keeps P (body x)) -> keeps P (for_each l body).
Proof.
  intros Hbody. induction l as [|x l IH]; cbn [for_each].
  - apply keeps_ret.
  - apply keeps_bind; [apply Hbody | intros _; exact IH].
Qed.

Lemma runs_when (P : State -> Prop) (b : bool) (m : M unit) :
  runs P m -> runs P (when b m).
Proof. intros Hm. destruct b; [exact Hm | apply runs_ret]. Qed.

Lemma runs_for_each {A} (P : State -> Prop) (l : list A) (body : A -> M unit) :
  (forall x, runs P (body x)) -> runs P (for_each l body).
Proof.
  intros Hbody. induction l as [|x l IH]; cbn [for_each].
  - apply runs_ret.
  - apply runs_bind; [apply Hbody | intros _; exact IH].
Qed.

(** Splits a goal on a computation into goals on its parts. *)
Ltac keeps_step :=
  first
    [ apply keeps_ret | apply keeps_raise | apply keeps_lift | apply keeps_get_state
    | apply keeps_bind; [|intros ?]
    | apply keeps_when
    | apply keeps_for_each; intros ?
    | match goal with
      | |- keeps _ (if ?b then _ else _) => destruct b
      | |- keeps _ (match ?x with _ => _ end) => destruct x
      end ].

Ltac runs_step :=
  first
    [ apply runs_ret
    | apply runs_bind; [|intros ?]
    | apply runs_when
    | apply runs_for_each; intros ?
    | match goal with
      | |- runs _ (if ?b then _ else _) => destruct b
      | |- runs _ (match ?x with _ => _ end) => destruct x
      end ].

Lemma consistent_logged (s : State) (evs : list Event) : consistent s -> consistent (logged s evs).
Proof. intros (l & Hl & Hall). exists l. split; [exact Hl | exact Hall]. Qed.

Lemma consistent_resolvable (s : State) (l : list string) :
  consistent s -> _tryorder s = Some l -> resolvable s l.
Proof.
  intros (l' & Hl' & Hall) Hl nm Hin. right. apply Hall.
  rewrite Hl in Hl'. injection Hl' as <-. exact Hin.
Qed.

Lemma consistent_registered (s : State) (l : list string) (nm : string) (d : Descriptor)
    (preferred : bool) :
  consistent s -> _tryorder s = Some l -> consistent (registered s l nm d preferred).
Proof.
  intros (l' & Hl' & Hall) Hl. rewrite Hl in Hl'. injection Hl' as <-.
  eexists. split; [reflexivity|]. intros nm' Hin.
  cbn [registered _browsers].
  destruct (decide (Str.lower nm = Str.lower nm')) as [Heq | Hne].
  - rewrite Heq, lookup_insert_eq. eexists; reflexivity.
  - rewrite lookup_insert_ne by exact Hne. apply Hall.
    destruct (prefers s nm preferred).
    + destruct Hin as [<- | Hin]; [congruence | exact Hin].
    + apply in_app_or in Hin as [Hin | [<- | []]]; [exact Hin | congruence].
Qed.

(** The outcome of [xdg-settings], as the hypothesis [Hxdg] has it. *)
Ltac xdg_step Hxdg :=
  match goal with
  | |- runs _ (match check_output ?os ?l ?c with _ => _ end) =>
      let Hx := fresh "Hx" in
      pose proof (Hxdg l) as Hx;
      destruct (check_output os l c) as [[?|]| |?]; try contradiction
  end.

Section Invariant.

Variable os : OS.

Lemma keeps_consistent_emit (e : Event) : keeps consistent (emit e).
Proof. intros s s' r HP [= <- _]. exact (consistent_logged s [e] HP). Qed.

Lemma keeps_consistent_set_os_preferred_browser (p : option string) :
  keeps consistent (set_os_preferred_browser p).
Proof. intros s s' r (l & Hl & Hall) [= <- _]. exists l. split; [exact Hl | exact Hall]. Qed.

Lemma keeps_consistent_register_with (init : M unit) (nm : string) (k : option Klass)
    (instance : option Browser) (preferred : bool) :
  keeps consistent (register_with init nm k instance preferred).
Proof.
  intros s s' r HP. pose proof HP as (l & Hl & _).
  rewrite (register_with_initialised init nm k instance preferred s l Hl).
  intros [= <- _]. apply consistent_registered; assumption.
Qed.

Lemma keeps_consistent_synthesize_with (init : M unit) (browser : string) (preferred : bool) :
  keeps consistent (_synthesize_with os init browser preferred).
Proof.
  unfold _synthesize_with.
  repeat first [ apply keeps_consistent_register_with | keeps_step ].
Qed.

Lemma keeps_consistent_register_X_browsers : keeps consistent (register_X_browsers os).
Proof.
  unfold register_X_browsers, register_nested.
  repeat first [ apply keeps_consistent_register_with | keeps_step ].
Qed.

Lemma establishes_consistent_probe : establishes consistent (register_standard_browsers os).
Proof.
  unfold register_standard_browsers, register_nested. cbv zeta.
  apply establishes_bind.
  { intros s s' r [= <- _]. exists []. split; [reflexivity | intros nm []]. }
  intros _.
  repeat first [ apply keeps_consistent_register_with
               | apply keeps_consistent_synthesize_with
               | apply keeps_consistent_register_X_browsers
               | apply keeps_consistent_emit
               | apply keeps_consistent_set_os_preferred_browser
               | keeps_step ].
Qed.

Lemma bind_leads {A B} (Q P : State -> Prop) (m : M A) (k : A -> M B) :
  (forall s s1 r1, Q s -> m s = (s1, r1) -> P s1) ->
  (forall a, keeps P (k a)) ->
  forall s s' r, Q s -> bind m k s = (s', r) -> P s'.
Proof.
  intros Hm Hk s s' r HQ. unfold bind.
  destruct (m s) as [s1 [a|e|]] eqn:E; intros H.
  - exact (Hk a s1 s' r (Hm s s1 _ HQ E) H).
  - inversion H; subst s'. exact (Hm s s1 _ HQ E).
  - inversion H; subst s'. exact (Hm s s1 _ HQ E).
Qed.

Lemma keeps_consistent_Browser_open (self : Browser) (url : string) (new : Z)
    (autoraise : bool) :
  keeps consistent (Browser_open os self url new autoraise).
Proof.
  intros s s' r HP H. destruct (Browser_open_logged os self url new autoraise s) as [evs Hevs].
  rewrite H in Hevs. cbn in Hevs. subst s'. apply consistent_logged. exact HP.
Qed.

Lemma keeps_consistent_get_step (browser : string) : keeps consistent (get_step os browser).
Proof.
  unfold get_step, _synthesize.
  repeat first [ apply keeps_consistent_synthesize_with | keeps_step ].
Qed.

Lemma ensure_registered_consistent (s s' : State) (r : Res unit) :
  _tryorder s = None \/ consistent s ->
  ensure_registered os s = (s', r) -> consistent s'.
Proof.
  intros Hs. unfold ensure_registered, bind, get_state, when.
  destruct (bool_decide (_tryorder s = None)) eqn:Hb.
  - apply establishes_consistent_probe.
  - apply bool_decide_eq_false in Hb. destruct Hs as [Hs | Hs]; [contradiction|].
    intros [= <- _]. exact Hs.
Qed.

Lemma keeps_consistent_get_loop (fuel i : nat) : keeps consistent (get_loop os fuel i).
Proof.
  revert i. induction fuel as [|fuel IH]; intros i; cbn [get_loop].
  - apply keeps_lift.
  - repeat first [ apply keeps_consistent_get_step | apply IH | keeps_step ].
Qed.

Lemma get_consistent (fuel : nat) (using_ : option string) (s s' : State) (r : Res Browser) :
  _tryorder s = None \/ consistent s ->
  get os fuel using_ s = (s', r) -> consistent s'.
Proof.
  unfold get. apply (bind_leads (fun s0 => _tryorder s0 = None \/ consistent s0) consistent).
  - intros s0 s1 r1. apply ensure_registered_consistent.
  - intros _. destruct using_ as [u|].
    + repeat first [ apply keeps_consistent_get_step | keeps_step ].
    + apply keeps_consistent_get_loop.
Qed.

Lemma keeps_consistent_get (fuel : nat) (using_ : option string) :
  keeps consistent (get os fuel using_).
Proof. intros s s' r HP. apply get_consistent. right. exact HP. Qed.

Lemma keeps_consistent_open_loop (fuel i : nat) (url : string) (new : Z) (autoraise : bool) :
  keeps consistent (open_loop os fuel i url new autoraise).
Proof.
  revert i. induction fuel as [|fuel IH]; intros i; cbn [open_loop].
  - apply keeps_lift.
  - repeat first [ apply keeps_consistent_get | apply keeps_consistent_Browser_open
                 | apply IH | keeps_step ].
Qed.

Lemma open_consistent (fuel : nat) (url : string) (new : Z) (autoraise : bool)
    (s s' : State) (r : Res bool) :
  _tryorder s = None \/ consistent s ->
  open os fuel url new autoraise s = (s', r) -> consistent s'.
Proof.
  unfold open. apply (bind_leads (fun s0 => _tryorder s0 = None \/ consistent s0) consistent).
  - intros s0 s1 r1. apply ensure_registered_consistent.
  - intros _. apply keeps_consistent_open_loop.
Qed.

(** On a registry that was never initialised, [register] runs the
    probe and then registers as on an initialised one. *)
Lemma register_with_init (init : M unit) (nm : string) (k : option Klass)
    (instance : option Browser) (preferred : bool) (s : State) :
  _tryorder s = None ->
  register_with init nm k instance preferred s =
    match init s with
    | (s0, Ret _) => register_with (ret tt) nm k instance preferred s0
    | (s0, Raise e) => (s0, Raise e)
    | (s0, OutOfFuel) => (s0, OutOfFuel)
    end.
Proof.
  intros Hnone. unfold register_with, bind, get_state, when.
  rewrite Hnone, bool_decide_eq_true_2 by reflexivity.
  destruct (init s) as [s0 [[]|e|]]; try reflexivity.
  destruct (bool_decide (_tryorder s0 = None)); reflexivity.
Qed.

Lemma register_consistent (nm : string) (k : option Klass) (instance : option Browser)
    (preferred : bool) (s s' : State) (r : Res unit) :
  _tryorder s = None \/ consistent s ->
  register os nm k instance preferred s = (s', r) -> consistent s'.
Proof.
  intros [Hnone | Hs] H.
  - unfold register in H. rewrite (register_with_init _ _ _ _ _ _ Hnone) in H.
    destruct (register_standard_browsers os s) as [s0 [[]|e|]] eqn:E;
      pose proof (establishes_consistent_probe s s0 _ E) as H0.
    + exact (keeps_consistent_register_with _ nm k instance preferred s0 s' r H0 H).
    + inversion H; subst s'. exact H0.
    + inversion H; subst s'. exact H0.
  - exact (keeps_consistent_register_with _ nm k instance preferred s s' r Hs H).
Qed.

(** X9: Whatever their outcome, [register], [get] and [open] leave the
    registry initialised, every name of the preference order having a
    descriptor; they may be called on the registry as it is before its
    first use, or on one that is consistent already. *)
Theorem api_keeps_registry_consistent (s : State) :
  _tryorder s = None \/ consistent s ->
  (forall nm k instance preferred, consistent (fst (register os nm k instance preferred s))) /\
  (forall fuel using_, consistent (fst (get os fuel using_ s))) /\
  (forall fuel url new autoraise, consistent (fst (open os fuel url new autoraise s))).
Proof.
  intros Hs. repeat split.
  - intros nm k instance preferred.
    destruct (register os nm k instance preferred s) as [s' r] eqn:E.
    exact (register_consistent nm k instance preferred s s' r Hs E).
  - intros fuel using_. destruct (get os fuel using_ s) as [s' r] eqn:E.
    exact (get_consistent fuel using_ s s' r Hs E).
  - intros fuel url new autoraise. destruct (open os fuel url new autoraise s) as [s' r] eqn:E.
    exact (open_consistent fuel url new autoraise s s' r Hs E).
Qed.

(** *** The probe returns *)

Lemma bind_from {A B} (P0 P : State -> Prop) (m : M A) (k : A -> M B)
    (Q : State * Res B -> Prop) :
  (forall s, P0 s -> exists s1 a, m s = (s1, Ret a) /\ P s1) ->
  (forall a s1, P s1 -> Q (k a s1)) ->
  forall s, P0 s -> Q (bind m k s).
Proof.
  intros Hm Hk s HP. unfold bind.
  destruct (Hm s HP) as (s1 & a & -> & H1). apply Hk. exact H1.
Qed.

Lemma bind_runs {A B} (P : State -> Prop) (m : M A) (k : A -> M B)
    (Q : State * Res B -> Prop) :
  runs P m ->
  (forall a s1, P s1 -> Q (k a s1)) ->
  forall s, P s -> Q (bind m k s).
Proof. intros Hm. apply bind_from. exact Hm. Qed.

Lemma runs_bind_lift {A B} (P : State -> Prop) (a : A) (k : A -> M B) :
  runs P (k a) -> runs P (bind (lift (Ret a)) k).
Proof. intros H s HP. exact (H s HP). Qed.

Lemma named_registered (s : State) (l : list string) (nm : string) (k : option Klass)
    (instance : option Browser) (preferred : bool) :
  named s ->
  (forall b, instance = Some b -> basename b <> None) ->
  named (registered s l nm (k, instance) preferred).
Proof.
  intros Hs Hinst key k' b. cbn [registered _browsers].
  destruct (decide (Str.lower nm = key)) as [<- | Hne].
  - rewrite lookup_insert_eq. intros [= _ ->]. apply Hinst. reflexivity.
  - rewrite lookup_insert_ne by exact Hne. apply Hs.
Qed.

Lemma runs_ready_register_with (init : M unit) (nm : string) (k : option Klass)
    (instance : option Browser) (preferred : bool) :
  (forall b, instance = Some b -> basename b <> None) ->
  runs ready (register_with init nm k instance preferred).
Proof.
  intros Hinst s [[l Hl] Hn].
  rewrite (register_with_initialised init nm k instance preferred s l Hl).
  eexists _, tt. split; [reflexivity|]. split.
  - eexists; reflexivity.
  - apply named_registered; assumption.
Qed.

Lemma runs_ready_emit (e : Event) : runs ready (emit e).
Proof. intros s HP. eexists _, tt. split; [reflexivity | exact HP]. Qed.

Lemma runs_ready_set_os_preferred_browser (p : option string) :
  runs ready (set_os_preferred_browser p).
Proof. intros s HP. eexists _, tt. split; [reflexivity | exact HP]. Qed.

Lemma runs_get_state (P : State -> Prop) : runs P get_state.
Proof. intros s HP. exists s, s. split; [reflexivity | exact HP]. Qed.

(** Registers a connector made by [BaseBrowser.__init__] or
    [GenericBrowser.__init__]. *)
Ltac runs_register :=
  apply runs_ready_register_with; intros ? [= <-]; discriminate.

Lemma runs_ready_register_X_browsers : runs ready (register_X_browsers os).
Proof.
  unfold register_X_browsers, register_nested. cbn [GenericBrowser_init_list].
  repeat first [ runs_register | apply runs_bind_lift | runs_step ].
Qed.

(** The probe before it reads BROWSER. *)
Lemma runs_ready_platform :
  runs ready
    (when (String.eqb (sys_platform os) "darwin")
       (register_nested "MacOSX" None (Some (BaseBrowser_init MacOSXOSAScript "default")) false ;;
        register_nested "chrome" None (Some (BaseBrowser_init MacOSXOSAScript "chrome")) false ;;
        register_nested "firefox" None (Some (BaseBrowser_init MacOSXOSAScript "firefox")) false ;;
        register_nested "safari" None (Some (BaseBrowser_init MacOSXOSAScript "safari")) false)) /\
  runs ready
    (when (String.eqb (sys_platform os) "serenityos")
       (register_nested "Browser" None
          (Some (GenericBrowser_init os BackgroundBrowser "Browser")) false)).
Proof.
  unfold register_nested. split; repeat first [ runs_register | runs_step ].
Qed.

(** A descriptor without instance makes the probe register the entry
    as a direct-command launcher, at the front. *)
Lemma use_fallback (e : string) (s : State) (l : list string) :
  ready s -> _tryorder s = Some l ->
  exists s',
    when (bool_decide (snd ((None, None) : Descriptor) = None))
      (register_nested e None (Some (GenericBrowser_init os GenericBrowser e)) true) s
      = (s', Ret tt) /\
    ready s' /\ _tryorder s' = Some (e :: l).
Proof.
  intros [_ Hn] Hl. cbn [snd]. rewrite bool_decide_eq_true_2 by reflexivity. cbn [when].
  unfold register_nested. rewrite (register_with_initialised _ _ _ _ _ s l Hl).
  eexists. split; [reflexivity|]. split; [split|].
  - eexists; reflexivity.
  - apply named_registered; [exact Hn | intros b [= <-]; discriminate].
  - reflexivity.
Qed.

(** The two outcomes of synthesis on an initialised registry whose
    instances have a [basename]. *)
Lemma synthesize_cases (init : M unit) (e : string) (preferred : bool) (s : State)
    (l : list string) :
  Str.split e <> [] -> ready s -> _tryorder s = Some l ->
  _synthesize_with os init e preferred s = (s, Ret (None, None)) \/
  exists controller,
    _synthesize_with os init e preferred s
      = (registered s l e (None, Some controller) preferred, Ret (None, Some controller)) /\
    basename controller <> None.
Proof.
  intros Hsplit [_ Hn] Hl. unfold _synthesize_with.
  destruct (Str.split e) as [|cmd rest]; [contradiction|].
  destruct (which os cmd); cbn [negb]; [|left; reflexivity].
  unfold bind, get_state.
  destruct (_browsers s !! _) as [[k [controller|]]|] eqn:Hlook;
    cbn [snd]; [| left; reflexivity | left; reflexivity].
  destruct (basename controller) as [b|] eqn:Hb;
    [|exfalso; exact (Hn _ _ _ Hlook Hb)].
  destruct (String.eqb (Str.lower (path_basename os cmd)) b); [|left; reflexivity].
  right. rewrite (register_with_initialised _ _ _ _ _ s l Hl).
  eexists. split; [reflexivity | discriminate].
Qed.

Lemma use_browser_entry_front (e : string) (s : State) (l : list string) :
  nonempty e = true -> Str.split e <> [] ->
  ready s -> _tryorder s = Some l ->
  exists s', use_browser_entry os e s = (s', Ret tt) /\
             ready s' /\ _tryorder s' = Some (e :: l).
Proof.
  intros Hne Hsplit Hr Hl. unfold use_browser_entry. rewrite Hne. cbn [when].
  unfold bind at 1.
  destruct (synthesize_cases (ret tt) e true s l Hsplit Hr Hl)
    as [-> | (controller & -> & Hb)].
  - exact (use_fallback e s l Hr Hl).
  - cbn [snd]. rewrite bool_decide_eq_false_2 by discriminate. cbn [when ret].
    eexists. split; [reflexivity|]. split; [split|].
    + eexists; reflexivity.
    + apply named_registered; [exact (proj2 Hr) | intros b' [= <-]; exact Hb].
    + reflexivity.
Qed.

(** The loop over the entries puts each non-empty entry at the front:
    they end up in the reverse of the order of the loop. *)
Lemma browser_loop_front (entries : list string) :
  Forall (fun e => ~ blank e) entries ->
  forall (s : State) (l : list string),
    ready s -> _tryorder s = Some l ->
    exists s', for_each entries (use_browser_entry os) s = (s', Ret tt) /\
               ready s' /\
               _tryorder s' = Some (rev (List.filter nonempty entries) ++ l)%list.
Proof.
  induction 1 as [|e entries He _ IH]; intros s l Hr Hl.
  - exists s. repeat split; [exact (proj1 Hr) | exact (proj2 Hr) | exact Hl].
  - cbn [for_each List.filter]. unfold bind.
    destruct (nonempty e) eqn:Hne.
    + destruct (use_browser_entry_front e s l Hne) as (s1 & -> & Hr1 & Hl1); try assumption.
      { intros Hs. apply He. split; [|exact Hs].
        intros ->. discriminate Hne. }
      destruct (IH s1 (e :: l) Hr1 Hl1) as (s' & Hrun & Hr' & Hl').
      exists s'. split; [exact Hrun|]. split; [exact Hr'|].
      rewrite Hl'. cbn [rev]. rewrite <- app_assoc. reflexivity.
    + unfold use_browser_entry at 1. rewrite Hne. cbn [when ret].
      exact (IH s l Hr Hl).
Qed.

(** A blank entry makes the loop raise [IndexError]. *)
Lemma browser_loop_blank (entries : list string) :
  Exists blank entries ->
  forall s : State, ready s ->
    exists s', for_each entries (use_browser_entry os) s = (s', Raise IndexError).
Proof.
  induction entries as [|e entries IH]; intros Hex s Hr; [inversion Hex|].
  cbn [for_each]. unfold bind.
  destruct (nonempty e) eqn:Hne.
  - destruct (Str.split e) as [|w ws] eqn:Hsplit.
    + exists s. unfold use_browser_entry, _synthesize_with. rewrite Hne, Hsplit. reflexivity.
    + destruct Hr as [[l Hl] Hn].
      destruct (use_browser_entry_front e s l Hne) as (s1 & -> & Hr1 & _);
        [congruence | split; [eexists; exact Hl | exact Hn] | exact Hl |].
      apply IH; [|exact Hr1].
      inversion Hex as [? ? [_ Hb] | ? ? Hrest]; subst; [congruence | exact Hrest].
  - unfold use_browser_entry at 1. rewrite Hne. cbn [when ret].
    apply IH; [|exact Hr].
    inversion Hex as [? ? [Hb _] | ? ? Hrest]; subst; [|exact Hrest].
    exfalso. unfold nonempty in Hne. apply negb_false_iff, String.eqb_eq in Hne. exact (Hb Hne).
Qed.

(** The probe, from its last part on. *)
Lemma probe_from_BROWSER (Q : State * Res unit -> Prop) :
  xdg_settings_answers os ->
  (forall s1, ready s1 ->
     Q (match environ os "BROWSER" with
        | None => ret tt
        | Some v => for_each (rev (Str.split_on (pathsep os) v)) (use_browser_entry os)
        end s1)) ->
  forall s, named s -> Q (register_standard_browsers os s).
Proof.
  intros Hxdg Hfinal. unfold register_standard_browsers. cbv zeta.
  apply (bind_from named ready).
  { intros s Hn. eexists _, tt. split; [reflexivity|]. split; [eexists; reflexivity | exact Hn]. }
  intros _ s1 H1. revert s1 H1.
  apply (bind_runs ready); [exact (proj1 runs_ready_platform)|].
  intros _.
  apply (bind_runs ready); [exact (proj2 runs_ready_platform)|].
  intros _.
  apply (bind_runs ready).
  { unfold xdg_settings_answers, queries_xdg in Hxdg. unfold register_nested.
    destruct (is_win os); cbn [negb andb] in Hxdg.
    - repeat first [ runs_register | runs_step ].
    - apply runs_bind; [|intros _].
      + destruct (environ_truthy os "DISPLAY" || environ_truthy os "WAYLAND_DISPLAY");
          [specialize (Hxdg eq_refl) | apply runs_ret]. cbn [when].
        repeat first [ xdg_step Hxdg | apply runs_ready_register_X_browsers
                     | apply runs_ready_emit | apply runs_ready_set_os_preferred_browser
                     | apply runs_get_state | runs_step ].
      + repeat first [ runs_register | runs_step ]. }
  intros _ s1 H1. exact (Hfinal s1 H1).
Qed.

(** X10: When [xdg-settings], if the probe asks it, gives an output
    that can be decoded or raises an exception that the probe catches,
    and no entry of BROWSER is blank, the probe returns, from the
    registry as it is before its first use and from every registry
    whose instances have a [basename]; the preference order that it
    builds starts with the non-empty entries of BROWSER, in the order
    in which the user wrote them. *)
Theorem probe_puts_BROWSER_first (s : State) :
  xdg_settings_answers os ->
  named s ->
  Forall (fun e => ~ blank e) (browser_entries os) ->
  exists s' l0,
    register_standard_browsers os s = (s', Ret tt) /\
    _tryorder s' = Some (List.filter nonempty (browser_entries os) ++ l0)%list.
Proof.
  intros Hxdg Hn Hall. revert s Hn.
  apply (probe_from_BROWSER
           (fun x => exists s' l0, x = (s', Ret tt) /\
                       _tryorder s' = Some (List.filter nonempty (browser_entries os) ++ l0)%list)
           Hxdg).
  intros s1 H1. pose proof H1 as [[l Hl] _].
  unfold browser_entries in *. destruct (environ os "BROWSER") as [v|].
  - destruct (browser_loop_front (rev (Str.split_on (pathsep os) v))) with (s := s1) (l := l)
      as (s' & Hrun & _ & Hl'); [apply Forall_rev; exact Hall | exact H1 | exact Hl |].
    exists s', l. split; [exact Hrun|].
    rewrite Hl', List.filter_rev, rev_involutive. reflexivity.
  - exists s1, l. split; [reflexivity | exact Hl].
Qed.

(** X11: When [xdg-settings], if the probe asks it, gives an output
    that can be decoded or raises an exception that the probe catches,
    a blank entry in BROWSER (white space between two separators)
    makes the probe raise [IndexError]. *)
Theorem probe_blank_BROWSER_entry (s : State) :
  xdg_settings_answers os ->
  named s ->
  Exists blank (browser_entries os) ->
  exists s', register_standard_browsers os s = (s', Raise IndexError).
Proof.
  intros Hxdg Hn Hex. revert s Hn.
  apply (probe_from_BROWSER (fun x => exists s', x = (s', Raise IndexError)) Hxdg).
  intros s1 H1. unfold browser_entries in *. destruct (environ os "BROWSER") as [v|].
  - apply browser_loop_blank; [|exact H1]. apply Exists_rev. exact Hex.
  - inversion Hex.
Qed.

End Invariant.

(** ** Registration and selection together *)

(** A string that splits into no word holds white space only. *)
Lemma split_go_nil (s : string) :
  forall tok, Str.split_go tok s = [] ->
              tok = "" /\ forall c, mem_char c s = true -> Str.isspace c = true.
Proof.
  induction s as [|c0 s IH]; intros tok; cbn [Str.split_go mem_char].
  - destruct (String.eqb_spec tok ""); [|discriminate]. intros _. split; [assumption | discriminate].
  - destruct (Str.isspace c0) eqn:Hsp.
    + destruct (String.eqb_spec tok ""); [|discriminate].
      intros H. apply IH in H as [_ Hall]. split; [assumption|].
      intros c Hc. apply orb_true_iff in Hc as [Hc | Hc].
      * apply Ascii.eqb_eq in Hc. subst c. exact Hsp.
      * apply Hall. exact Hc.
    + intros H. apply IH in H as [Hsnoc _]. exfalso.
      unfold Str.snoc in Hsnoc. destruct tok; discriminate Hsnoc.
Qed.

Section RoundTrip.

Variable os : OS.

(** What the body of the loop of [get] makes of a descriptor. *)
Lemma get_step_key (nm : string) (s : State) (d : Descriptor) :
  Str.contains "%s" nm = false ->
  _browsers s !! Str.lower nm = Some d ->
  get_step os nm s =
    (s, match d with
        | (_, Some b) => Ret (Some b)
        | (Some c, None) =>
            match instantiate c with
            | Ret b => Ret (Some b)
            | Raise e => Raise e
            | OutOfFuel => OutOfFuel
            end
        | (None, None) => Ret None
        end).
Proof.
  intros Hph Hd. unfold get_step. rewrite Hph.
  unfold bind, get_state. rewrite Hd. unfold ret.
  destruct d as [[c|] [b|]]; try reflexivity.
  unfold lift. destruct (instantiate c); reflexivity.
Qed.

(** What the body of the loop of [get] makes of a candidate with the
    placeholder. *)
Lemma get_step_placeholder (nm : string) (s : State) :
  Str.contains "%s" nm = true ->
  get_step os nm s =
    (s, match placeholder_launcher os nm with
        | Ret b => Ret (Some b)
        | Raise e => Raise e
        | OutOfFuel => OutOfFuel
        end).
Proof.
  intros Hph. unfold get_step, placeholder_launcher. rewrite Hph.
  destruct (Shlex.split nm) as [argv|]; [|reflexivity].
  destruct (last argv) as [tok|]; [|reflexivity].
  unfold bind, lift.
  destruct (String.eqb tok "&");
    [destruct (GenericBrowser_init_list os BackgroundBrowser (removelast argv))
    | destruct (GenericBrowser_init_list os GenericBrowser argv)]; reflexivity.
Qed.

(** What [get] makes of a descriptor. *)
Lemma get_registered_key (fuel : nat) (nm : string) (s : State) (d : Descriptor) :
  _tryorder s <> None ->
  Str.contains "%s" nm = false ->
  _browsers s !! Str.lower nm = Some d ->
  get os fuel (Some nm) s =
    (s, match d with
        | (_, Some b) => Ret b
        | (Some c, None) => instantiate c
        | (None, None) => Raise (Error could_not_locate_runnable_browser)
        end).
Proof.
  intros Ht Hph Hd. unfold get, ensure_registered, bind, get_state, when.
  rewrite bool_decide_eq_false_2 by exact Ht. unfold ret, get_step. rewrite Hph.
  unfold bind, get_state. rewrite Hd. unfold ret.
  destruct d as [[c|] [b|]]; try reflexivity.
  unfold bind, lift. destruct (instantiate c); reflexivity.
Qed.

(** X13: After [register] returned, [get] with the registered name, in
    whatever case it is written, leaves the registry as it is and
    returns the registered instance; without instance it calls the
    registered class (which raises [TypeError] for a class that needs a
    name), and without class it raises the no-runnable-browser error. *)
Theorem get_after_register (fuel : nat) (nm nm' : string) (k : option Klass)
    (instance : option Browser) (preferred : bool) (s s1 : State) :
  register os nm k instance preferred s = (s1, Ret tt) ->
  Str.contains "%s" nm' = false ->
  Str.lower nm' = Str.lower nm ->
  get os fuel (Some nm') s1 =
    (s1, match instance, k with
         | Some b, _ => Ret b
         | None, Some c => instantiate c
         | None, None => Raise (Error could_not_locate_runnable_browser)
         end).
Proof.
  intros Hreg Hph Hkey.
  apply register_with_returns in Hreg as (s0 & l & -> & Hl).
  rewrite (get_registered_key fuel nm' _ (k, instance)).
  - destruct instance, k; reflexivity.
  - discriminate.
  - exact Hph.
  - rewrite Hkey. apply lookup_insert_eq.
Qed.

(** X14: After a preferred registration of an instance returned, [get]
    without argument returns that instance when the name holds no
    placeholder.  When the name holds the placeholder, [get] does not
    look at the descriptor: it returns a new launcher for the name
    split as a command line (or raises the [ValueError] of the
    split). *)
Theorem get_default_after_preferred_register (fuel : nat) (nm : string) (k : option Klass)
    (b : Browser) (s s1 : State) :
  register os nm k (Some b) true s = (s1, Ret tt) ->
  get os (S fuel) None s1 =
    (s1, if Str.contains "%s" nm then placeholder_launcher os nm else Ret b).
Proof.
  intros Hreg.
  apply register_with_returns in Hreg as (s0 & l & -> & Hl).
  unfold get, ensure_registered, bind, get_state, when.
  rewrite bool_decide_eq_false_2 by discriminate.
  unfold ret; cbn [get_loop]. unfold bind, get_state.
  cbn [registered _tryorder prefers orb lookup list_lookup].
  destruct (Str.contains "%s" nm) eqn:Hph.
  - rewrite (get_step_placeholder nm _ Hph).
    destruct (placeholder_launcher os nm); reflexivity.
  - rewrite (get_step_key nm _ (k, Some b) Hph) by apply lookup_insert_eq.
    destruct k; reflexivity.
Qed.

(** X15: A name that is no key and whose first word is not found on the
    search path: [get] raises the no-runnable-browser error and leaves
    the registry as it is. *)
Theorem get_unknown_command (fuel : nat) (nm cmd : string) (rest : list string) (s : State) :
  _tryorder s <> None ->
  Str.contains "%s" nm = false ->
  _browsers s !! Str.lower nm = None ->
  Str.split nm = cmd :: rest ->
  which os cmd = false ->
  get os fuel (Some nm) s = (s, Raise (Error could_not_locate_runnable_browser)).
Proof.
  intros Ht Hph Hmiss Hsplit Hwhich.
  unfold get, ensure_registered, bind, get_state, when.
  rewrite bool_decide_eq_false_2 by exact Ht. unfold ret, get_step. rewrite Hph.
  unfold bind, get_state. rewrite Hmiss.
  unfold _synthesize, _synthesize_with. rewrite Hsplit, Hwhich. reflexivity.
Qed.

(** X16: A name without any word (the empty string, white space) that is no
    key: [get] raises [IndexError]. *)
Theorem get_blank_name (fuel : nat) (nm : string) (s : State) :
  _tryorder s <> None ->
  _browsers s !! Str.lower nm = None ->
  Str.split nm = [] ->
  get os fuel (Some nm) s = (s, Raise IndexError).
Proof.
  intros Ht Hmiss Hsplit.
  assert (Str.contains "%s" nm = false) as Hph.
  { destruct (Str.contains "%s" nm) eqn:Hph; [|reflexivity].
    apply contains_placeholder_percent in Hph.
    apply split_go_nil in Hsplit as [_ Hall]. apply Hall in Hph. discriminate Hph. }
  unfold get, ensure_registered, bind, get_state, when.
  rewrite bool_decide_eq_false_2 by exact Ht. unfold ret, get_step. rewrite Hph.
  unfold bind, get_state. rewrite Hmiss.
  unfold _synthesize, _synthesize_with. rewrite Hsplit. reflexivity.
Qed.

(** X17: An instance without [basename] attribute (one of [MacOSX]) under
    the base name of a command found on the search path: synthesis
    raises [AttributeError]. *)
Theorem synthesize_needs_basename (browser cmd : string) (rest : list string)
    (preferred : bool) (k : option Klass) (b : Browser) (s : State) :
  Str.split browser = cmd :: rest ->
  which os cmd = true ->
  _browsers s !! Str.lower (path_basename os cmd) = Some (k, Some b) ->
  basename b = None ->
  _synthesize os browser preferred s = (s, Raise AttributeError).
Proof.
  intros Hsplit Hwhich Hkey Hb.
  unfold _synthesize, _synthesize_with. rewrite Hsplit, Hwhich.
  unfold bind, get_state; cbn [negb]. rewrite Hkey. cbn [snd]. rewrite Hb. reflexivity.
Qed.

(** The names that [get] passes over without a word: a descriptor with
    neither class nor instance. *)
Lemma get_loop_skips (pre : list string) :
  forall (s : State) (tried post : list string) (fuel : nat),
    _tryorder s = Some (tried ++ pre ++ post)%list ->
    Forall (fun nm => Str.contains "%s" nm = false /\
                      _browsers s !! Str.lower nm = Some (None, None)) pre ->
    get_loop os (length pre + fuel) (length tried) s = get_loop os fuel (length (tried ++ pre)) s.
Proof.
  induction pre as [|nm pre IH]; intros s tried post fuel Ht Hall.
  - rewrite app_nil_r. reflexivity.
  - inversion Hall as [|? ? [Hph Hkey] Hrest]; subst.
    cbn [length Nat.add get_loop]. unfold bind, get_state. rewrite Ht.
    rewrite lookup_app_r, Nat.sub_diag by reflexivity. cbn [app lookup list_lookup].
    rewrite (get_step_key nm s (None, None) Hph Hkey).
    replace (S (length tried)) with (length (tried ++ [nm])) by (rewrite length_app, Nat.add_1_r; reflexivity).
    rewrite (IH s (tried ++ [nm])%list post fuel); [| rewrite <- app_assoc; exact Ht | exact Hrest].
    rewrite <- app_assoc. reflexivity.
Qed.

(** X18: [get] without argument passes over the names whose descriptor
    has neither class nor instance.  When the preference order holds
    only such names (or nothing) it raises the no-runnable-browser
    error.  Otherwise the first other name decides: with the
    placeholder, [get] returns a new launcher for the name split as a
    command line; with a descriptor that holds an instance, that
    instance; with a descriptor that holds a class only, what calling
    the class gives.  The registry stays as it is. *)
Theorem get_default_first_usable (fuel : nat) (pre post : list string) (s : State) :
  _tryorder s = Some (pre ++ post)%list ->
  Forall (fun nm => Str.contains "%s" nm = false /\
                    _browsers s !! Str.lower nm = Some (None, None)) pre ->
  (length pre < fuel)%nat ->
  (post = [] ->
   get os fuel None s = (s, Raise (Error could_not_locate_runnable_browser))) /\
  (forall nm rest,
     post = nm :: rest ->
     (Str.contains "%s" nm = true ->
      get os fuel None s = (s, placeholder_launcher os nm)) /\
     (forall k b,
        Str.contains "%s" nm = false ->
        _browsers s !! Str.lower nm = Some (k, Some b) ->
        get os fuel None s = (s, Ret b)) /\
     (forall c,
        Str.contains "%s" nm = false ->
        _browsers s !! Str.lower nm = Some (Some c, None) ->
        get os fuel None s = (s, instantiate c))).
Proof.
  intros Ht Hall Hfuel.
  assert (get os fuel None s = get_loop os (fuel - length pre) (length pre) s) as ->.
  { unfold get, ensure_registered, bind, get_state, when.
    rewrite Ht, bool_decide_eq_false_2 by discriminate. unfold ret.
    replace fuel with (length pre + (fuel - length pre))%nat at 1 by lia.
    apply (get_loop_skips pre s [] post); assumption. }
  destruct (fuel - length pre)%nat as [|f] eqn:Hf; [lia|]. cbn [get_loop].
  unfold bind, get_state. rewrite Ht. split.
  - intros ->. rewrite lookup_ge_None_2 by (rewrite app_nil_r; reflexivity). reflexivity.
  - intros nm rest ->.
    rewrite lookup_app_r, Nat.sub_diag by reflexivity. cbn [lookup list_lookup].
    split; [|split].
    + intros Hph. rewrite (get_step_placeholder nm s Hph).
      destruct (placeholder_launcher os nm); reflexivity.
    + intros k b Hph Hkey. rewrite (get_step_key nm s (k, Some b) Hph Hkey).
      destruct k; reflexivity.
    + intros c Hph Hkey. rewrite (get_step_key nm s (Some c, None) Hph Hkey).
      destruct (instantiate c); reflexivity.
Qed.

End RoundTrip.

(** ** More on the launchers *)

Lemma append_empty_r (s : string) : s +:+ "" = s.
Proof.
  induction s as [|c s IH]; [reflexivity|].
  change (String c s +:+ "") with (String c (s +:+ "")). rewrite IH. reflexivity.
Qed.

Lemma replace_s_action (url : string) : Str.replace "%s" url "%action" = "%action".
Proof. reflexivity. Qed.

Lemma replace_s_s (url : string) : Str.replace "%s" url "%s" = url.
Proof. unfold Str.replace. cbn. apply append_empty_r. Qed.

Lemma replace_action_action (a : string) : Str.replace "%action" a "%action" = a.
Proof. unfold Str.replace. cbn. apply append_empty_r. Qed.

Lemma mem_char_app (c : ascii) (s1 s2 : string) :
  mem_char c (s1 +:+ s2) = mem_char c s1 || mem_char c s2.
Proof.
  induction s1 as [|a s1 IH]; [reflexivity|].
  change (String a s1 +:+ s2) with (String a (s1 +:+ s2)). cbn [mem_char].
  rewrite IH. apply orb_assoc.
Qed.

(** The escaped URL holds no double quote. *)
Lemma replace_dq_no_dq (url : string) :
  mem_char (ascii_of_nat 34) (Str.replace dq "%22" url) = false.
Proof.
  unfold Str.replace, dq. induction url as [|c url IH]; [reflexivity|].
  cbn [Str.replace_go].
  change (String.prefix (String (ascii_of_nat 34) "") (String c url))
    with (if ascii_dec (ascii_of_nat 34) c then String.prefix "" url else false).
  destruct (ascii_dec (ascii_of_nat 34) c) as [<- | Hne].
  - replace (String.prefix "" url) with true by (destruct url; reflexivity).
    cbn [String.length Nat.sub]. rewrite mem_char_app, IH. reflexivity.
  - cbn [mem_char]. rewrite IH, orb_false_r. apply Ascii.eqb_neq. exact Hne.
Qed.

Section LauncherFacts.

Variable os : OS.

(** X4: A connector's [open] never touches the registry: the descriptors,
    the preference order and the default browser of the system are as
    before, and the log is the old log followed by new events. *)
Theorem open_keeps_registry (self : Browser) (url : string) (new : Z) (autoraise : bool)
    (s : State) :
  let s' := fst (Browser_open os self url new autoraise s) in
  _browsers s' = _browsers s /\ _tryorder s' = _tryorder s /\
  _os_preferred_browser s' = _os_preferred_browser s /\
  exists evs, log s' = (log s ++ evs)%list.
Proof.
  cbv zeta. destruct (Browser_open_logged os self url new autoraise s) as [evs ->].
  repeat split. exists evs. reflexivity.
Qed.


(** X6: The command line of the remote phase: the program, the option
    [-noraise] when an [Epiphany] launcher is asked not to raise the
    window, the action for [new] unless it is empty, and the URL, in
    which the text [%action] is replaced by the action as well, unless
    the result is empty.  It is the first command spawned by [open]. *)
Theorem remote_command_line (self : Browser) (url : string) (new : Z) (autoraise : bool)
    (s : State) (a : string) :
  is_unix_family (klass self) = true -> klass self <> Elinks ->
  0 <= new <= 2 ->
  action_for (klass self) new = Some a ->
  exists rest,
    spawned (log (fst (Browser_open os self url new autoraise s)))
      = (spawned (log s) ++
         (name self :: raise_option (klass self) autoraise ++
            List.filter nonempty [a; Str.replace "%action" a url]) :: rest)%list.
Proof.
  intros Hk Hel Hnew Ha.
  assert (new = 0 \/ new = 1 \/ new = 2) as [-> | [-> | ->]] by lia;
    unfold Browser_open; destruct (klass self) eqn:Hk'; try discriminate Hk; try congruence;
    cbn in Ha; injection Ha as <-;
    unfold UnixBrowser_open, _invoke; rewrite Hk'; unfold_monad;
    rewrite ?replace_s_action, ?replace_s_s, ?replace_action_action;
    destruct autoraise; cbn; change (nonempty "") with false;
    change (nonempty "-noraise") with true; cbn; repeat branch;
    rewrite <- ?app_assoc, !spawned_app; cbn; eexists; reflexivity.
Qed.

(** X7: When the remote command ends in time with a status other
    than zero, [open] runs the fallback command, which is the program
    followed by its arguments with the URL put in, and returns what
    the process of the fallback command shows: whether it is still
    running (for a launcher that runs in the background) or ended with
    status zero (for [Elinks]).  [p1] is the process of the remote
    command, the first spawn of the call, and [p2] the process of the
    fallback command, the second one. *)
Theorem remote_failure_falls_back (self : Browser) (url : string) (new : Z)
    (autoraise : bool) (s : State) (p1 p2 : Proc) (rc : Z) :
  is_unix_family (klass self) = true ->
  0 <= new <= 2 ->
  (forall cmdline opts,
     spawn os (log s ++ [Audit "webbrowser.open" url]) cmdline opts = Some p1) ->
  (forall c o cmdline opts,
     spawn os (log s ++ [Audit "webbrowser.open" url; Spawn c o]) cmdline opts = Some p2) ->
  wait_timeout p1 5 = Some rc -> rc <> 0 ->
  snd (Browser_open os self url new autoraise s)
    = Ret (if background (klass self) then bool_decide (poll p2 = None) else wait p2 =? 0) /\
  exists remote,
    spawned (log (fst (Browser_open os self url new autoraise s)))
      = (spawned (log s) ++
         [remote; name self :: map (Str.replace "%s" url) (args self)])%list.
Proof.
  intros Hk Hnew Hspawn1 Hspawn2 Hwait Hrc. apply Z.eqb_neq in Hrc.
  assert (new = 0 \/ new = 1 \/ new = 2) as [-> | [-> | ->]] by lia;
    unfold Browser_open; destruct (klass self) eqn:Hk'; try discriminate Hk;
    unfold UnixBrowser_open, _invoke; rewrite Hk'; unfold_monad;
    destruct autoraise; cbn; rewrite !Hspawn1; cbn; rewrite Hwait, Hrc; cbn;
    rewrite <- ?app_assoc; cbn [app]; rewrite !Hspawn2; cbn; destruct (poll p2); cbn;
    (split; [reflexivity
            | rewrite <- ?app_assoc, !spawned_app; cbn; eexists; reflexivity]).
Qed.

(** X8: [MacOSXOSAScript] hands exactly one script to [osascript]; for the
    default browser it is the command [open location] followed by the
    URL between double quotes, and the URL put there holds no double
    quote: each one was replaced by %22. *)
Theorem osascript_url_escaped (url : string) (new : Z) (autoraise : bool) (s : State) :
  scripts (log (fst (Browser_open os (BaseBrowser_init MacOSXOSAScript "default")
                       url new autoraise s)))
    = (scripts (log s) ++
       ["open location " +:+ dq +:+ Str.replace dq "%22" url +:+ dq])%list /\
  mem_char (ascii_of_nat 34) (Str.replace dq "%22" url) = false.
Proof.
  split; [|apply replace_dq_no_dq].
  unfold Browser_open, MacOSXOSAScript_open, run_osascript; unfold_monad.
  assert (forall l1 l2, scripts (l1 ++ l2) = (scripts l1 ++ scripts l2)%list) as Happ.
  { induction l1 as [|e l1 IH]; intros l2; [reflexivity|]. destruct e; cbn; rewrite IH; reflexivity. }
  repeat branch; rewrite Happ; reflexivity.
Qed.

End LauncherFacts.

(** ** The command line *)

Lemma scan_opts_help (opts : list (string * string)) :
  forallb (fun o => negb (is_help o)) opts = false ->
  forall new_win, scan_opts opts new_win = None.
Proof.
  induction opts as [|[o a] opts IH]; [discriminate|].
  cbn [forallb scan_opts]. unfold is_help at 1. cbn [fst]. intros H new_win.
  destruct (String.eqb_spec o "-n") as [-> | _]; [apply IH; exact H|].
  destruct (String.eqb_spec o "-t") as [-> | _]; [apply IH; exact H|].
  destruct (String.eqb o "-h" || String.eqb o "--help"); [reflexivity|].
  apply IH. exact H.
Qed.

Lemma scan_opts_no_choice (opts : list (string * string)) :
  forallb (fun o => negb (is_help o)) opts = true ->
  forallb (fun o => negb (is_choice o)) opts = true ->
  forall new_win, scan_opts opts new_win = Some new_win.
Proof.
  induction opts as [|[o a] opts IH]; [reflexivity|].
  cbn [forallb scan_opts]. unfold is_help at 1, is_choice at 1. cbn [fst].
  intros Hh Hc new_win.
  apply andb_true_iff in Hh as [Hh Hh']. apply andb_true_iff in Hc as [Hc Hc'].
  apply negb_true_iff in Hh. apply negb_true_iff, orb_false_iff in Hc as [Hn Ht].
  rewrite Hn, Ht, Hh. apply IH; assumption.
Qed.

Lemma scan_opts_app (opts1 opts2 : list (string * string)) :
  forallb (fun o => negb (is_help o)) opts1 = true ->
  forall new_win, exists n, scan_opts (opts1 ++ opts2) new_win = scan_opts opts2 n.
Proof.
  induction opts1 as [|[o a] opts1 IH]; intros Hh new_win; [exists new_win; reflexivity|].
  cbn [forallb] in Hh. apply andb_true_iff in Hh as [Hh Hh'].
  unfold is_help in Hh. cbn [fst] in Hh. apply negb_true_iff in Hh.
  cbn [app scan_opts]. rewrite Hh.
  destruct (String.eqb o "-n"); [apply IH; exact Hh'|].
  destruct (String.eqb o "-t"); apply IH; exact Hh'.
Qed.

Section MainFacts.

Variable os : OS.

(** X20: A help option among the options: [main] prints the usage on the
    standard error and exits without status, whatever the other
    options and arguments are; no browser is looked for. *)
Theorem main_help (fuel : nat) (argv0 : string) (opts : list (string * string))
    (args : list string) (s : State) :
  forallb (fun o => negb (is_help o)) opts = false ->
  main os fuel argv0 (Parsed opts args) s = (s, [Stderr (usage argv0)], Exited None).
Proof.
  intros Hh. unfold main. rewrite (scan_opts_help opts Hh). reflexivity.
Qed.

(** X21: Without help option, no argument or more than one: [main] prints
    the usage on the standard error and exits with status 1; no browser
    is looked for and the registry stays as it is. *)
Theorem main_wrong_arguments (fuel : nat) (argv0 : string) (opts : list (string * string))
    (args : list string) (s : State) :
  forallb (fun o => negb (is_help o)) opts = true ->
  length args <> 1%nat ->
  main os fuel argv0 (Parsed opts args) s = (s, [Stderr (usage argv0)], Exited (Some 1)).
Proof.
  intros Hh Hargs. unfold main.
  destruct (scan_opts_app opts [] Hh 0) as [n Hn]. rewrite app_nil_r in Hn. rewrite Hn.
  cbn [scan_opts]. destruct args as [|url [|url' args]]; try reflexivity.
  exfalso. apply Hargs. reflexivity.
Qed.

(** X22: Of the options for a window and for a tab the last one counts, the
    other options (such as [-d]) are ignored; [main] calls [open] with
    the URL and that choice, and when [open] returns, with true or
    with false, it prints the bell character and returns. *)
Theorem main_last_choice (fuel : nat) (argv0 : string) (opts1 opts2 : list (string * string))
    (o a url : string) (s : State) :
  forallb (fun o => negb (is_help o)) opts1 = true ->
  forallb (fun o => negb (is_help o)) opts2 = true ->
  forallb (fun o => negb (is_choice o)) opts2 = true ->
  o = "-n" \/ o = "-t" ->
  main os fuel argv0 (Parsed (opts1 ++ (o, a) :: opts2) [url]) s =
    match open os fuel url (if String.eqb o "-n" then 1 else 2) true s with
    | (s', Ret _) => (s', [Stdout bell], Returned)
    | (s', Raise e) => (s', [], Uncaught e)
    | (s', OutOfFuel) => (s', [], Unfinished)
    end.
Proof.
  intros H1 H2 Hc Ho. unfold main.
  destruct (scan_opts_app opts1 ((o, a) :: opts2) H1 0) as [n ->].
  cbn [scan_opts].
  destruct Ho as [-> | ->]; cbn [String.eqb Ascii.eqb Bool.eqb];
    rewrite (scan_opts_no_choice opts2 H2 Hc); reflexivity.
Qed.

End MainFacts.

(** ** More on [open] and on the probe *)

Section OpenFacts.

Variable os : OS.

(** After the rounds that return false the loop goes on behind them. *)
Lemma open_loop_after_fails (url : string) (new : Z) (autoraise : bool)
    (pre : list string) (s s1 : State) :
  all_fail os url new autoraise pre s s1 ->
  forall (tried post : list string) (fuel : nat),
    _tryorder s = Some (tried ++ pre ++ post)%list ->
    resolvable s pre ->
    open_loop os (length pre + fuel) (length tried) url new autoraise s
      = open_loop os fuel (length (tried ++ pre)) url new autoraise s1 /\
    _tryorder s1 = _tryorder s.
Proof.
  induction 1 as [s | nm l s s' s1 Hatt Hall IH]; intros tried post fuel Ht Hres.
  - rewrite app_nil_r. split; reflexivity.
  - assert (exists evs, s' = logged s evs) as [evs ->].
    { destruct (attempt_logged os url new autoraise nm s) as [evs Hevs].
      - rewrite Ht. discriminate.
      - apply Hres. left. reflexivity.
      - exists evs. rewrite Hatt in Hevs. exact Hevs. }
    cbn [length Nat.add].
    rewrite (open_loop_step os (length l + fuel) (length tried) url new autoraise s _ nm Ht)
      by (rewrite lookup_app_r, Nat.sub_diag by reflexivity; reflexivity).
    rewrite Hatt.
    replace (S (length tried)) with (length (tried ++ [nm]))
      by (rewrite length_app, Nat.add_1_r; reflexivity).
    destruct (IH (tried ++ [nm])%list post fuel) as [Hloop Hord].
    + cbn [logged _tryorder]. rewrite Ht, <- app_assoc. reflexivity.
    + intros nm' Hin. apply (Hres nm'). right. exact Hin.
    + rewrite Hloop, <- app_assoc. split; [reflexivity | exact Hord].
Qed.

(** X19: An exception raised in a round ends [open]: it goes through to the
    caller and the names that follow are not tried. *)
Theorem open_exception_aborts (fuel : nat) (url : string) (new : Z) (autoraise : bool)
    (pre rest : list string) (nm : string) (s s1 s2 : State) (e : Exn) :
  _tryorder s = Some (pre ++ nm :: rest)%list ->
  resolvable s pre ->
  all_fail os url new autoraise pre s s1 ->
  (length pre < fuel)%nat ->
  attempt os url new autoraise nm s1 = (s2, Raise e) ->
  open os fuel url new autoraise s = (s2, Raise e).
Proof.
  intros Ht Hres Hall Hfuel Hatt.
  unfold open, ensure_registered, bind, get_state, when.
  rewrite Ht, bool_decide_eq_false_2 by discriminate. unfold ret.
  replace fuel with (length pre + S (fuel - length pre - 1))%nat by lia.
  destruct (open_loop_after_fails url new autoraise pre s s1 Hall [] (nm :: rest)
              (S (fuel - length pre - 1)) Ht Hres) as [Hloop Hord].
  cbn [length app] in Hloop. rewrite Hloop.
  rewrite (open_loop_step os _ _ url new autoraise s1 (pre ++ nm :: rest) nm).
  - rewrite Hatt. reflexivity.
  - rewrite Hord. exact Ht.
  - cbn [app]. rewrite lookup_app_r, Nat.sub_diag by reflexivity. reflexivity.
Qed.

End OpenFacts.

Section ProbeFacts.

Variable os : OS.

Lemma runs_installed_register_with (init : M unit) (nm : string) (k : option Klass)
    (instance : option Browser) (preferred : bool) :
  which os nm = true ->
  (forall b, instance = Some b -> basename b <> None) ->
  runs (installed os) (register_with init nm k instance preferred).
Proof.
  intros Hw Hinst s [Hr (l & Hl & Hall)].
  destruct (runs_ready_register_with init nm k instance preferred Hinst s Hr)
    as (s' & [] & Hrun & Hr').
  exists s', tt. split; [exact Hrun|]. split; [exact Hr'|].
  rewrite (register_with_initialised init nm k instance preferred s l Hl) in Hrun.
  injection Hrun as <-. eexists. split; [reflexivity|].
  destruct (prefers s nm preferred).
  - constructor; assumption.
  - apply Forall_app. split; [exact Hall | constructor; [exact Hw | constructor]].
Qed.

Lemma runs_installed_emit (e : Event) : runs (installed os) (emit e).
Proof. intros s HP. eexists _, tt. split; [reflexivity | exact HP]. Qed.

Lemma runs_installed_set_os_preferred_browser (p : option string) :
  runs (installed os) (set_os_preferred_browser p).
Proof. intros s HP. eexists _, tt. split; [reflexivity | exact HP]. Qed.

Lemma runs_unfold {A} (P : State -> Prop) (m : M A) :
  runs P m -> forall s, P s -> exists s' a, m s = (s', Ret a) /\ P s'.
Proof. intros H. exact H. Qed.

(** A registration under the condition that the name is found. *)
Ltac found_step :=
  first
    [ apply runs_installed_register_with; [assumption | intros ? [= <-]; discriminate]
    | apply runs_ret
    | apply runs_get_state
    | apply runs_installed_emit
    | apply runs_installed_set_os_preferred_browser
    | apply runs_bind_lift
    | apply runs_bind; [|intros ?]
    | apply runs_for_each; intros ?
    | match goal with
      | |- runs _ (when (which os ?x) _) => destruct (which os x) eqn:?; cbn [when]
      | |- runs _ (when (_ && which os ?x) _) =>
          destruct (which os x) eqn:?; rewrite ?andb_true_r, ?andb_false_r
      | |- runs _ (when ?b _) => destruct b; cbn [when]
      | |- runs _ (if which os ?x then _ else _) => destruct (which os x) eqn:?
      | |- runs _ (match ?x with _ => _ end) => destruct x
      end ].

Lemma runs_installed_register_X_browsers : runs (installed os) (register_X_browsers os).
Proof.
  unfold register_X_browsers, register_nested. cbn [GenericBrowser_init_list].
  repeat found_step.
Qed.

(** X12: On a system that is neither a Mac, nor SerenityOS, nor Windows,
    without the variable BROWSER, and on which [xdg-settings], if the
    probe asks it, gives an output that can be decoded or raises an
    exception that the probe catches, the probe returns and every name
    that it puts in the preference order was found on the search
    path. *)
Theorem probe_registers_installed_only (s : State) :
  xdg_settings_answers os ->
  String.eqb (sys_platform os) "darwin" = false ->
  String.eqb (sys_platform os) "serenityos" = false ->
  is_win os = false ->
  environ os "BROWSER" = None ->
  named s ->
  exists s' l,
    register_standard_browsers os s = (s', Ret tt) /\
    _tryorder s' = Some l /\
    Forall (fun nm => which os nm = true) l.
Proof.
  intros Hxdg Hdarwin Hserenity Hwin Hbrowser Hn.
  assert (exists s' (u : unit), register_standard_browsers os s = (s', Ret u) /\ installed os s')
    as (s' & [] & Hrun & _ & l & Hl & Hall).
  { revert s Hn. unfold register_standard_browsers. cbv zeta.
    unfold xdg_settings_answers, queries_xdg in Hxdg.
    rewrite Hdarwin, Hserenity, Hbrowser. rewrite Hwin in Hxdg |- *. cbn [negb andb] in Hxdg.
    destruct (environ_truthy os "DISPLAY" || environ_truthy os "WAYLAND_DISPLAY");
      [specialize (Hxdg eq_refl)|].
    all: apply (bind_from named (installed os) _ _
                  (fun x => exists s' (u : unit), x = (s', Ret u) /\ installed os s'));
      [ intros s Hn; eexists _, tt; split; [reflexivity|]; split;
        [ split; [eexists; reflexivity | exact Hn]
        | exists []; split; [reflexivity | constructor] ] | ].
    all: intros _; apply runs_unfold; unfold register_nested; cbn [when].
    all: repeat first [ xdg_step Hxdg | apply runs_installed_register_X_browsers | found_step ]. }
  exists s', l. repeat split; assumption.
Qed.

End ProbeFacts.

(** ** The theorems at work *)

Lemma named_fresh : named fresh.
Proof.
  intros key k b H. unfold fresh in H. cbn [_browsers] in H.
  rewrite lookup_empty in H. discriminate H.
Qed.

Lemma open_audits_once_witness :
  exists evs,
    log (fst (Browser_open no_exec_os (BaseBrowser_init Mozilla "firefox")
                "https://example.org" 0 true empty_registry))
      = (log empty_registry ++ evs)%list /\
    audit_events evs = [("webbrowser.open", "https://example.org")].
Proof.
  apply (open_audits_once no_exec_os (BaseBrowser_init Mozilla "firefox")
           "https://example.org" 0 true empty_registry); discriminate.
Defined.

Lemma remote_command_line_witness :
  exists rest,
    spawned (log (fst (Browser_open (const_os (exited 0)) (BaseBrowser_init Epiphany "epiphany")
                         "https://example.org" 1 false empty_registry)))
      = (spawned (log empty_registry) ++
         ("epiphany" :: raise_option Epiphany false ++
            List.filter nonempty ["-w"; Str.replace "%action" "-w" "https://example.org"])
         :: rest)%list.
Proof.
  apply (remote_command_line (const_os (exited 0)) (BaseBrowser_init Epiphany "epiphany")
           "https://example.org" 1 false empty_registry "-w");
    [reflexivity | discriminate | lia | reflexivity].
Defined.

Lemma remote_failure_falls_back_witness :
  snd (Browser_open remote_fails_os (BaseBrowser_init Mozilla "firefox")
         "https://example.org" 0 true empty_registry)
    = Ret (if background Mozilla then bool_decide (poll (running 0) = None)
           else wait (running 0) =? 0) /\
  exists remote,
    spawned (log (fst (Browser_open remote_fails_os (BaseBrowser_init Mozilla "firefox")
                         "https://example.org" 0 true empty_registry)))
      = (spawned (log empty_registry) ++
         [remote; "firefox" :: map (Str.replace "%s" "https://example.org") ["%s"]])%list.
Proof.
  apply (remote_failure_falls_back remote_fails_os (BaseBrowser_init Mozilla "firefox")
           "https://example.org" 0 true empty_registry (exited 1) (running 0) 1);
    [reflexivity | lia | reflexivity | reflexivity | reflexivity | lia].
Defined.

Lemma api_keeps_registry_consistent_witness :
  (forall nm k instance preferred,
     consistent (fst (register lynx_os nm k instance preferred fresh))) /\
  (forall fuel using_, consistent (fst (get lynx_os fuel using_ fresh))) /\
  (forall fuel url new autoraise, consistent (fst (open lynx_os fuel url new autoraise fresh))).
Proof.
  apply (api_keeps_registry_consistent lynx_os fresh). left. reflexivity.
Defined.

Lemma probe_puts_BROWSER_first_witness :
  exists s' l0,
    register_standard_browsers (browser_env_os "lynx::/opt/firefox -P x") fresh = (s', Ret tt) /\
    _tryorder s' =
      Some (List.filter nonempty (browser_entries (browser_env_os "lynx::/opt/firefox -P x"))
              ++ l0)%list.
Proof.
  apply (probe_puts_BROWSER_first (browser_env_os "lynx::/opt/firefox -P x") fresh).
  - intros H. discriminate H.
  - exact named_fresh.
  - change (Forall (fun e => ~ blank e) ["lynx"; ""; "/opt/firefox -P x"]).
    constructor; [intros [_ H]; discriminate H|].
    constructor; [intros [H _]; apply H; reflexivity|].
    constructor; [intros [_ H]; discriminate H|].
    constructor.
Defined.

Lemma probe_blank_BROWSER_entry_witness :
  exists s', register_standard_browsers (browser_env_os "lynx: ") fresh = (s', Raise IndexError).
Proof.
  apply (probe_blank_BROWSER_entry (browser_env_os "lynx: ") fresh).
  - intros H. discriminate H.
  - exact named_fresh.
  - right. left. split; [discriminate | reflexivity].
Defined.

Lemma get_after_register_witness :
  get bare_os 0 (Some "LYNX")
      (registered empty_registry [] "Lynx" (None, Some (BaseBrowser_init Elinks "lynx")) false)
    = (registered empty_registry [] "Lynx" (None, Some (BaseBrowser_init Elinks "lynx")) false,
       Ret (BaseBrowser_init Elinks "lynx")).
Proof.
  apply (get_after_register bare_os 0 "Lynx" "LYNX" None (Some (BaseBrowser_init Elinks "lynx"))
           false empty_registry); reflexivity.
Defined.

Lemma get_default_after_preferred_register_witness :
  get bare_os 1 None
      (registered firefox_registry ["firefox"] "lynx -dump %s"
         (None, Some (BaseBrowser_init Elinks "lynx")) true)
    = (registered firefox_registry ["firefox"] "lynx -dump %s"
         (None, Some (BaseBrowser_init Elinks "lynx")) true,
       if Str.contains "%s" "lynx -dump %s" then placeholder_launcher bare_os "lynx -dump %s"
       else Ret (BaseBrowser_init Elinks "lynx")).
Proof.
  apply (get_default_after_preferred_register bare_os 0 "lynx -dump %s" None
           (BaseBrowser_init Elinks "lynx") firefox_registry); reflexivity.
Defined.

Lemma get_unknown_command_witness :
  get bare_os 0 (Some "netscape -remote") firefox_registry
    = (firefox_registry, Raise (Error could_not_locate_runnable_browser)).
Proof.
  apply (get_unknown_command bare_os 0 "netscape -remote" "netscape" ["-remote"]
           firefox_registry); [discriminate | reflexivity ..].
Defined.

Lemma get_blank_name_witness :
  get all_found_os 0 (Some "  ") firefox_registry = (firefox_registry, Raise IndexError).
Proof.
  apply (get_blank_name all_found_os 0 "  " firefox_registry);
    [discriminate | reflexivity | reflexivity].
Defined.

Lemma synthesize_needs_basename_witness :
  _synthesize all_found_os "/Applications/safari" false safari_registry
    = (safari_registry, Raise AttributeError).
Proof.
  apply (synthesize_needs_basename all_found_os "/Applications/safari" "/Applications/safari" []
           false None (MacOSX_init "safari") safari_registry); reflexivity.
Defined.

Lemma get_default_first_usable_witness :
  get bare_os 2 None class_only_registry
    = (class_only_registry, instantiate WindowsDefault).
Proof.
  apply (proj2 (proj2 (proj2 (get_default_first_usable bare_os 2 ["a"] ["windows-default"]
                                class_only_registry eq_refl
                                ltac:(repeat constructor) ltac:(cbn; lia))
                         "windows-default" [] eq_refl))
           WindowsDefault); reflexivity.
Defined.

Lemma open_exception_aborts_witness :
  open a_only_os 3 "https://example.org" 0 true a_firefox_c_registry
    = (logged a_firefox_c_registry
         [Audit "webbrowser.open" "https://example.org";
          Spawn ["a"; "https://example.org"] (mkPopenOpts true false false false false);
          Audit "webbrowser.open" "https://example.org";
          Spawn ["firefox"; "https://example.org"] (mkPopenOpts true true true true true)],
       Raise OSError).
Proof.
  apply (open_exception_aborts a_only_os 3 "https://example.org" 0 true ["a"] ["c"] "firefox"
           a_firefox_c_registry
           (logged a_firefox_c_registry
              [Audit "webbrowser.open" "https://example.org";
               Spawn ["a"; "https://example.org"] (mkPopenOpts true false false false false)])).
  - reflexivity.
  - intros nm [<- | []]. right. eexists. reflexivity.
  - apply (all_fail_cons a_only_os "https://example.org" 0 true "a" [] a_firefox_c_registry
             (logged a_firefox_c_registry
                [Audit "webbrowser.open" "https://example.org";
                 Spawn ["a"; "https://example.org"] (mkPopenOpts true false false false false)]));
      [reflexivity | constructor].
  - cbn; lia.
  - reflexivity.
Defined.

Lemma probe_registers_installed_only_witness :
  exists s' l,
    register_standard_browsers lynx_desktop_os fresh = (s', Ret tt) /\
    _tryorder s' = Some l /\
    Forall (fun nm => which lynx_desktop_os nm = true) l.
Proof.
  apply (probe_registers_installed_only lynx_desktop_os fresh);
    [intros _ l; exact I | reflexivity | reflexivity | reflexivity | reflexivity
    | exact named_fresh].
Defined.

Lemma main_help_witness :
  main bare_os 0 "webbrowser" (Parsed [("-n", ""); ("--help", "")] ["a"; "b"]) fresh
    = (fresh, [Stderr (usage "webbrowser")], Exited None).
Proof. apply (main_help bare_os 0 "webbrowser" [("-n", ""); ("--help", "")]). reflexivity. Defined.

Lemma main_wrong_arguments_witness :
  main bare_os 0 "webbrowser" (Parsed [("-t", "")] []) fresh
    = (fresh, [Stderr (usage "webbrowser")], Exited (Some 1)).
Proof.
  apply (main_wrong_arguments bare_os 0 "webbrowser" [("-t", "")] []); [reflexivity | cbn; lia].
Defined.

Lemma main_last_choice_witness :
  main bare_os 1 "webbrowser" (Parsed ([("-n", "")] ++ ("-t", "") :: [("-d", "")])
                                 ["https://example.org"]) fresh
    = match open bare_os 1 "https://example.org" (if String.eqb "-t" "-n" then 1 else 2) true
              fresh with
      | (s', Ret _) => (s', [Stdout bell], Returned)
      | (s', Raise e) => (s', [], Uncaught e)
      | (s', OutOfFuel) => (s', [], Unfinished)
      end.
Proof.
  apply (main_last_choice bare_os 1 "webbrowser" [("-n", "")] [("-d", "")] "-t" ""
           "https://example.org" fresh); [reflexivity | reflexivity | reflexivity | right; reflexivity].
Defined.
